(** * TimeInput: the segmented time editor of react-widgets

    A shallow embedding of [packages/react-widgets/src/TimeInput.js]: the
    value-parts codec ([getValueParts]), the segment validator ([TESTS],
    [isValid]), the classification of segment records ([isEmptyValue],
    [isPartialValue]), the edit-session hook ([useTimePartState]) and the
    event handlers of the component ([handleClear], [handleChange],
    [handleKeyDown], [increment], [notifyChange]).

    Conventions of the embedding.
    - A JavaScript string is a [string]; a segment value is an [option Z]
      ([None] stands for both [null] and [undefined], which the source only
      ever tests on segments with [== null], [!= null] or truthiness).
    - The [value] and [use12HourClock] props keep [undefined], [null] and
      the value apart ([ValueProp], [ModeProp]), because [useTimePartState]
      compares them with [!==]; everything else tests them for truthiness
      and reads them through [value] and [use12HourClock].
    - A [Date] is an object identity together with a time value in
      milliseconds. Only valid dates are modelled and [TimeClip] is the
      identity. The time zone is a parameter, the [LocalTZA(t, isUTC)] of
      the language specification: any offset for an instant and any offset
      for a local time, so daylight-saving transitions are covered.
    - A handler returns the list of effects it performs, in program order. *)

From Stdlib Require Import ZArith List Bool Ascii String Lia DecimalString DecimalZ.
Import ListNotations.
Open Scope Z_scope.
Open Scope string_scope.

Set Implicit Arguments.

(** ** Strings and numbers of the platform *)

(** [String(n)] for an integral Number: its decimal digits, with a minus sign
    when negative (the rendering of every integer below 10^21 in magnitude). *)
Definition String_of (n : Z) : string :=
  NilEmpty.string_of_int (Z.to_int n).

Definition inRange (lo hi c : ascii) : bool :=
  (nat_of_ascii lo <=? nat_of_ascii c)%nat && (nat_of_ascii c <=? nat_of_ascii hi)%nat.

Definition isDigit (c : ascii) : bool := inRange "0" "9" c.

Definition digitVal (c : ascii) : Z := Z.of_nat (nat_of_ascii c) - 48.

Fixpoint digitsValueFrom (acc : Z) (s : string) : Z :=
  match s with
  | EmptyString => acc
  | String c s' => digitsValueFrom (10 * acc + digitVal c) s'
  end.

Definition digitsValue (s : string) : Z := digitsValueFrom 0 s.

Fixpoint allChars (p : ascii -> bool) (s : string) : bool :=
  match s with
  | EmptyString => true
  | String c s' => p c && allChars p s'
  end.

Fixpoint dropWhile (p : ascii -> bool) (s : string) : string :=
  match s with
  | EmptyString => EmptyString
  | String c s' => if p c then dropWhile p s' else s
  end.

Fixpoint rev_string (acc s : string) : string :=
  match s with
  | EmptyString => acc
  | String c s' => rev_string (String c acc) s'
  end.

(** White space and line terminators that fit in one Latin-1 code unit. *)
Definition isWhiteSpace (c : ascii) : bool :=
  let n := nat_of_ascii c in
  ((9 <=? n)%nat && (n <=? 13)%nat) || (n =? 32)%nat || (n =? 160)%nat.

Definition trim (s : string) : string :=
  let s1 := dropWhile isWhiteSpace s in
  rev_string "" (dropWhile isWhiteSpace (rev_string "" s1)).

Definition startsWithDigit (s : string) : bool :=
  match s with
  | String c _ => isDigit c
  | EmptyString => false
  end.

Definition isSign (c : ascii) : bool := Ascii.eqb c "+" || Ascii.eqb c "-".

(** The empty string, or an ExponentPart: [e] or [E], an optional sign, and
    at least one digit. *)
Definition exponentOpt (s : string) : bool :=
  match s with
  | EmptyString => true
  | String e s' =>
      (Ascii.eqb e "e" || Ascii.eqb e "E") &&
      let ds := match s' with
                | String c t => if isSign c then t else s'
                | EmptyString => s'
                end in
      startsWithDigit ds && String.eqb (dropWhile isDigit ds) ""
  end.

(** StrUnsignedDecimalLiteral of the StringNumericLiteral grammar. *)
Definition strUnsignedDecimalLiteral (s : string) : bool :=
  if String.eqb s "Infinity" then true
  else if startsWithDigit s then
    match dropWhile isDigit s with
    | String "."%char r => exponentOpt (dropWhile isDigit r)
    | r => exponentOpt r
    end
  else
    match s with
    | String "."%char r => startsWithDigit r && exponentOpt (dropWhile isDigit r)
    | _ => false
    end.

Definition isHexDigit (c : ascii) : bool :=
  isDigit c || inRange "a" "f" c || inRange "A" "F" c.

(** NonDecimalIntegerLiteral: [0x], [0o] or [0b] followed by digits of the
    radix. *)
Definition nonDecimalIntegerLiteral (s : string) : bool :=
  match s with
  | String "0"%char (String k ((String _ _) as ds)) =>
      if Ascii.eqb k "x" || Ascii.eqb k "X" then allChars isHexDigit ds
      else if Ascii.eqb k "o" || Ascii.eqb k "O" then allChars (inRange "0" "7") ds
      else if Ascii.eqb k "b" || Ascii.eqb k "B" then allChars (inRange "0" "1") ds
      else false
  | _ => false
  end.

Definition strNumericLiteral (s : string) : bool :=
  nonDecimalIntegerLiteral s ||
  match s with
  | String c t => if isSign c then strUnsignedDecimalLiteral t
                  else strUnsignedDecimalLiteral s
  | EmptyString => false
  end.

(** A Number as far as the editor can observe it: [NaN], an integer that is
    tracked exactly, or some other Number (a fraction, an infinity, a signed,
    radix-prefixed, exponent or very long literal) of which the editor only
    ever asks whether it is [NaN]. *)
Inductive Number : Type :=
| NaN
| Int (z : Z)
| Untracked.

Definition isNaN (n : Number) : bool :=
  match n with
  | NaN => true
  | _ => false
  end.

(** Unary plus on a string ([+str]): StringToNumber. *)
Definition ToNumber (s : string) : Number :=
  let t := trim s in
  if String.eqb t "" then Int 0
  else if allChars isDigit t && (String.length t <=? 15)%nat then Int (digitsValue t)
  else if strNumericLiteral t then Untracked
  else NaN.

(** ** Regular expressions

    The fragment used by [TESTS]: character classes, sequence, alternation,
    [?] and bounded repetition. Every pattern of [TESTS] is anchored with
    [^] and [$] and has no flags, so [test] asks for a match of the whole
    string. *)
Inductive regex : Type :=
| Eps
| Class (lo hi : ascii)
| Seq (r1 r2 : regex)
| Alt (r1 r2 : regex)
| Opt (r : regex).

(** Backtracking matcher: the suffixes left after [r] has matched a prefix of
    [s], in the order a backtracking engine tries them. *)
Fixpoint run (r : regex) (s : string) : list string :=
  match r with
  | Eps => [s]
  | Class lo hi =>
      match s with
      | String c s' => if inRange lo hi c then [s'] else []
      | EmptyString => []
      end
  | Seq r1 r2 => flat_map (run r2) (run r1 s)
  | Alt r1 r2 => run r1 s ++ run r2 s
  | Opt r1 => run r1 s ++ [s]
  end.

(** [/^r$/.test(s)] *)
Definition test (r : regex) (s : string) : bool :=
  existsb (String.eqb "") (run r s).

Definition Chr (c : ascii) : regex := Class c c.
Definition digit : regex := Class "0" "9".

Fixpoint upTo (r : regex) (n : nat) : regex :=
  match n with
  | O => Eps
  | S k => Opt (Seq r (upTo r k))
  end.

Fixpoint exactly (r : regex) (n : nat) (k : regex) : regex :=
  match n with
  | O => k
  | S n' => Seq r (exactly r n' k)
  end.

(** [r{lo,hi}] *)
Definition Quant (r : regex) (lo hi : nat) : regex :=
  exactly r lo (upTo r (hi - lo)).

(** ** The segment validator *)

Inductive NumPart : Type := Hours | Minutes | Seconds | Milliseconds.

Inductive Part : Type :=
| Num (p : NumPart)
| MeridiemPart.

(** [/^([1]?[0-9]|2[0-3])$/] *)
Definition TESTS_hours : regex :=
  Alt (Seq (Opt (Chr "1")) digit) (Seq (Chr "2") (Class "0" "3")).

(** [/^^(1[0-2]|0?[1-9])$$/] *)
Definition TESTS_hours12 : regex :=
  Alt (Seq (Chr "1") (Class "0" "2")) (Seq (Opt (Chr "0")) (Class "1" "9")).

(** [/^([0-5]?\d)$/] *)
Definition TESTS_minutes : regex := Seq (Opt (Class "0" "5")) digit.

Definition TESTS_seconds : regex := Seq (Opt (Class "0" "5")) digit.

(** [/^(\d{1,3})$/] *)
Definition TESTS_milliseconds : regex := Quant digit 1 3.

Definition isValid (value : string) (part : NumPart) (use12HourClock : bool) : bool :=
  match part with
  | Hours => if negb use12HourClock then test TESTS_hours value
             else test TESTS_hours12 value
  | Minutes => test TESTS_minutes value
  | Seconds => test TESTS_seconds value
  | Milliseconds => test TESTS_milliseconds value
  end.

(** ** Dates

    The time-value arithmetic of the Date built-in, on exact integers. *)

Definition msPerDay : Z := 86400000.
Definition msPerHour : Z := 3600000.
Definition msPerMinute : Z := 60000.
Definition msPerSecond : Z := 1000.

Definition Day (t : Z) : Z := t / msPerDay.
Definition HourFromTime (t : Z) : Z := (t / msPerHour) mod 24.
Definition MinFromTime (t : Z) : Z := (t / msPerMinute) mod 60.
Definition SecFromTime (t : Z) : Z := (t / msPerSecond) mod 60.
Definition msFromTime (t : Z) : Z := t mod msPerSecond.

Definition MakeTime (hour min sec ms : Z) : Z :=
  hour * msPerHour + min * msPerMinute + sec * msPerSecond + ms.

Definition MakeDate (day time : Z) : Z := day * msPerDay + time.

(** A Date object: its identity (what [===] compares) and its time value. *)
Record Date : Type := mkDate { objId : nat; time : Z }.

Inductive Meridiem : Type := AM | PM.

Inductive Precision : Type := minutes_ | seconds_ | milliseconds_.

(** The record [{ hours, minutes, seconds, milliseconds, meridiem }]. *)
Record TimeParts : Type := mkTimeParts {
  hours : option Z;
  minutes : option Z;
  seconds : option Z;
  milliseconds : option Z;
  meridiem : Meridiem
}.

Definition isNull (v : option Z) : bool :=
  match v with
  | None => true
  | Some _ => false
  end.

(** [v || 0]: [null], [undefined] and [0] are falsy. *)
Definition orZero (v : option Z) : Z :=
  match v with
  | Some z => z
  | None => 0
  end.

(** The template-string fragment [${v || ''}]. *)
Definition orEmptyString (v : option Z) : string :=
  match v with
  | Some z => if (z =? 0)%Z then "" else String_of z
  | None => ""
  end.

Definition isEmptyValue (p : TimeParts) (precision : Precision) : bool :=
  isNull (hours p) &&
  isNull (minutes p) &&
  ((match precision with seconds_ | milliseconds_ => false | minutes_ => true end)
   || isNull (seconds p)) &&
  ((match precision with milliseconds_ => false | _ => true end)
   || isNull (milliseconds p)).

Definition isPartialValue (p : TimeParts) (precision : Precision) : bool :=
  isNull (hours p) ||
  isNull (minutes p) ||
  ((match precision with seconds_ | milliseconds_ => true | minutes_ => false end)
   && isNull (seconds p)) ||
  ((match precision with milliseconds_ => true | _ => false end)
   && isNull (milliseconds p)).

(** Reading and writing a segment by name: [timeParts[part]] and
    [{ [part]: v }]. *)
Definition getPart (p : TimeParts) (part : NumPart) : option Z :=
  match part with
  | Hours => hours p
  | Minutes => minutes p
  | Seconds => seconds p
  | Milliseconds => milliseconds p
  end.

Inductive Update : Type :=
| SetNum (part : NumPart) (v : option Z)
| SetMeridiem (m : Meridiem).

Definition assign (p : TimeParts) (u : Update) : TimeParts :=
  match u with
  | SetNum Hours v => mkTimeParts v (minutes p) (seconds p) (milliseconds p) (meridiem p)
  | SetNum Minutes v => mkTimeParts (hours p) v (seconds p) (milliseconds p) (meridiem p)
  | SetNum Seconds v => mkTimeParts (hours p) (minutes p) v (milliseconds p) (meridiem p)
  | SetNum Milliseconds v => mkTimeParts (hours p) (minutes p) (seconds p) v (meridiem p)
  | SetMeridiem m => mkTimeParts (hours p) (minutes p) (seconds p) (milliseconds p) m
  end.

(** [{ ...timeParts, ...updates }] *)
Definition merge (p : TimeParts) (updates : list Update) : TimeParts :=
  fold_left assign updates p.

(** *** The classification in the words of the specification *)

Definition requiredParts (precision : Precision) : list NumPart :=
  match precision with
  | minutes_ => [Hours; Minutes]
  | seconds_ => [Hours; Minutes; Seconds]
  | milliseconds_ => [Hours; Minutes; Seconds; Milliseconds]
  end.

Definition present (p : TimeParts) (part : NumPart) : bool :=
  negb (isNull (getPart p part)).

(** Every field required by the precision is absent. *)
Definition allRequiredAbsent (p : TimeParts) (precision : Precision) : bool :=
  forallb (fun part => negb (present p part)) (requiredParts precision).

(** Every field required by the precision is present. *)
Definition allRequiredPresent (p : TimeParts) (precision : Precision) : bool :=
  forallb (present p) (requiredParts precision).

(** Some but not all fields required by the precision are present. *)
Definition someButNotAllPresent (p : TimeParts) (precision : Precision) : bool :=
  existsb (present p) (requiredParts precision) &&
  negb (allRequiredPresent p precision).

Inductive Classification : Type := EmptyRecord | PartialRecord | CompleteRecord.

Definition classify (p : TimeParts) (precision : Precision) : Classification :=
  if allRequiredAbsent p precision then EmptyRecord
  else if allRequiredPresent p precision then CompleteRecord
  else PartialRecord.

(** ** The component *)

(** What a handler does, in program order. [OnChange] carries the time value
    of the freshly built Date ([None] for [onChange(null)]) and the second
    argument when one is passed. *)
Record Meta : Type := mkMeta {
  lastValue : option Date;
  meta_timeParts : TimeParts
}.

Inductive Effect : Type :=
| OnChange (nextValue : option Z) (meta : option Meta)
| SetTimeParts (timeParts : TimeParts)
| FocusHours
| FocusNext (delta : Z)
| Select
| PreventDefault.

(** The [value] prop as it is passed: [undefined], [null] or a Date. *)
Inductive ValueProp : Type :=
| undefinedValue
| nullValue
| dateValue (d : Date).

(** The [use12HourClock] prop as it is passed: [undefined] or a boolean. *)
Inductive ModeProp : Type :=
| undefinedMode
| boolMode (b : bool).

(** The Date of a [value] prop, as [if (value)] and [value || ...] see it. *)
Definition dateOf (v : ValueProp) : option Date :=
  match v with
  | dateValue d => Some d
  | _ => None
  end.

(** The truth value of a [use12HourClock] prop. *)
Definition truthy (m : ModeProp) : bool :=
  match m with
  | boolMode b => b
  | undefinedMode => false
  end.

Record Props : Type := Build_Props {
  valueProp : ValueProp;
  use12HourClockProp : ModeProp;
  precision : Precision;
  disabled : bool;
  readOnly : bool;
  datePart : option Date
}.

(** [value] and [use12HourClock] as the component body uses them, by
    truthiness. *)
Definition value (props : Props) : option Date := dateOf (valueProp props).

Definition use12HourClock (props : Props) : bool := truthy (use12HourClockProp props).

(** Props with a Date or [null] for [value] and a boolean for
    [use12HourClock]. *)
Definition mkProps (value : option Date) (use12HourClock : bool) (precision : Precision)
    (disabled readOnly : bool) (datePart : option Date) : Props :=
  Build_Props (match value with Some d => dateValue d | None => nullValue end)
              (boolMode use12HourClock) precision disabled readOnly datePart.

(** The part of a keyboard event the handler reads: [key], and the target's
    [selectionStart], [selectionEnd] and [value.length]. *)
Record KeyEvent : Type := mkKeyEvent {
  key : string;
  selectionStart : Z;
  selectionEnd : Z;
  valueLength : Z
}.

(** The state of [useTimePartState]. *)
Record HookState : Type := mkHookState {
  st_value : ValueProp;
  st_use12HourClock : ModeProp;
  st_timeParts : TimeParts
}.

(** [a === b] on the [value] prop: [undefined] and [null] are each equal to
    themselves only, and two Dates are equal when they are one object. *)
Definition sameValue (a b : ValueProp) : bool :=
  match a, b with
  | undefinedValue, undefinedValue => true
  | nullValue, nullValue => true
  | dateValue x, dateValue y => (objId x =? objId y)%nat
  | _, _ => false
  end.

(** [a === b] on the [use12HourClock] prop. *)
Definition sameMode (a b : ModeProp) : bool :=
  match a, b with
  | undefinedMode, undefinedMode => true
  | boolMode x, boolMode y => Bool.eqb x y
  | _, _ => false
  end.

(** *** Time zones

    [LocalTZA(t, isUTC)]: the offset of local time, in milliseconds, at the
    instant [t] when [isUTC] holds and for the local time [t] otherwise. *)

(** Universal time: no offset. *)
Definition utc (t : Z) (isUTC : bool) : Z := 0.

(** The rules of New York in 2021: five hours behind until 14 March
    07:00 UTC, four hours behind until 7 November 06:00 UTC, five hours
    behind after. A local time that the clocks skip or show twice is read
    with the offset in force before the transition. *)
Definition newYork2021 (t : Z) (isUTC : bool) : Z :=
  if isUTC
  then (if (t <? 1615705200000)%Z then -18000000
        else if (t <? 1636264800000)%Z then -14400000
        else -18000000)
  else (if (t <? 1615690800000)%Z then -18000000
        else if (t <? 1636250400000)%Z then -14400000
        else -18000000).

Section TimeInput.

(** The time zone of the platform. *)
Variable LocalTZA : Z -> bool -> Z.

(** The time value of [dates.today()]. *)
Variable today : Z.

Definition LocalTime (t : Z) : Z := t + LocalTZA t true.
Definition UTC (t : Z) : Z := t - LocalTZA t false.

Definition getHours (t : Z) : Z := HourFromTime (LocalTime t).
Definition getMinutes (t : Z) : Z := MinFromTime (LocalTime t).
Definition getSeconds (t : Z) : Z := SecFromTime (LocalTime t).
Definition getMilliseconds (t : Z) : Z := msFromTime (LocalTime t).

Definition setHours (t hour : Z) : Z :=
  let lt := LocalTime t in
  UTC (MakeDate (Day lt) (MakeTime hour (MinFromTime lt) (SecFromTime lt) (msFromTime lt))).

Definition setMinutes (t min : Z) : Z :=
  let lt := LocalTime t in
  UTC (MakeDate (Day lt) (MakeTime (HourFromTime lt) min (SecFromTime lt) (msFromTime lt))).

Definition setSeconds (t sec : Z) : Z :=
  let lt := LocalTime t in
  UTC (MakeDate (Day lt) (MakeTime (HourFromTime lt) (MinFromTime lt) sec (msFromTime lt))).

Definition setMilliseconds (t ms : Z) : Z :=
  let lt := LocalTime t in
  UTC (MakeDate (Day lt) (MakeTime (HourFromTime lt) (MinFromTime lt) (SecFromTime lt) ms)).

(** Modelled from the spec: [dates.startOf(d, 'day')] of ./util/dates, the
    date-utility collaborator's start of day: local midnight of the day of
    [t]. *)
Definition startOfDay (t : Z) : Z :=
  UTC (MakeDate (Day (LocalTime t)) 0).

(** The instant [t] is the one its own local time is read as: it is not the
    later of two instants that show the same local time when the clocks go
    back. *)
Definition resolvesToItself (t : Z) : Prop := UTC (LocalTime t) = t.

(** The local time that [t] shows is shown again by the instant it is read
    as. This holds of every instant in a time zone whose clocks skip only
    local times that no instant shows. *)
Definition keepsLocalTime (t : Z) : Prop :=
  LocalTime (UTC (LocalTime t)) = LocalTime t.

(** No local time of the calendar day [day] is skipped by the clocks going
    forward: every local time of that day, turned into an instant, shows
    that local time again. *)
Definition noSkippedTime (day : Z) : Prop :=
  forall L, Day L = day -> LocalTime (UTC L) = L.

Definition getValueParts (value : option Date) (use12HourClock : bool) : TimeParts :=
  match value with
  | Some d =>
      let h := getHours (time d) in
      let '(mer, h') :=
        if use12HourClock
        then (if (h <? 12)%Z then AM else PM,
              if (Z.rem h 12 =? 0)%Z then 12 else Z.rem h 12)
        else (AM, h) in
      mkTimeParts (Some h')
                  (Some (getMinutes (time d)))
                  (Some (getSeconds (time d)))
                  (Some (getMilliseconds (time d)))
                  mer
  | None => mkTimeParts None None None None AM
  end.

(** *** useTimePartState

    One evaluation of the hook body against the current state and the
    module-level [count]: the segments it returns, the state it asks React
    to install ([setState] during render), and the counter afterwards. *)
Definition useTimePartState (state : HookState) (count : Z)
    (value : ValueProp) (use12HourClock : ModeProp)
  : TimeParts * option HookState * Z :=
  if negb (sameValue (st_value state) value)
     || negb (sameMode (st_use12HourClock state) use12HourClock)
  then
    let count' := count + 1 in
    (st_timeParts state,
     (if (count' <? 100)%Z
      then Some (mkHookState value use12HourClock
                   (getValueParts (dateOf value) (truthy use12HourClock)))
      else None),
     count')
  else (st_timeParts state, None, count).

(** The initializer passed to [useState] on mount. *)
Definition initialState (value : ValueProp) (use12HourClock : ModeProp) : HookState :=
  mkHookState value use12HourClock
              (getValueParts (dateOf value) (truthy use12HourClock)).

(** A state update issued while rendering makes React evaluate the component
    again with the new state; [render] repeats the hook until an evaluation
    issues none. *)
Fixpoint render (fuel : nat) (state : HookState) (count : Z)
    (value : ValueProp) (use12HourClock : ModeProp)
  : option (TimeParts * HookState * Z) :=
  match fuel with
  | O => None
  | S fuel' =>
      match useTimePartState state count value use12HourClock with
      | (_, Some state', count') => render fuel' state' count' value use12HourClock
      | (parts, None, count') => Some (parts, state, count')
      end
  end.

(** [setTimeParts]: [setState(s => ({ ...s, timeParts }))]. *)
Definition setTimeParts (state : HookState) (timeParts : TimeParts) : HookState :=
  mkHookState (st_value state) (st_use12HourClock state) timeParts.

Definition applyEffect (state : HookState) (e : Effect) : HookState :=
  match e with
  | SetTimeParts p => setTimeParts state p
  | _ => state
  end.

Definition applyEffects (state : HookState) (es : list Effect) : HookState :=
  fold_left applyEffect es state.

Definition isOnChange (e : Effect) : bool :=
  match e with
  | OnChange _ _ => true
  | _ => false
  end.

(** The calls of [onChange] among the effects of a handler. *)
Definition onChangeCalls (es : list Effect) : list Effect := filter isOnChange es.

(** *** Handlers *)

Section Handlers.

Variable props : Props.
Variable timeParts : TimeParts.

Definition getDatePart : Z :=
  startOfDay (match datePart props with
              | Some d => time d
              | None => today
              end).

(** Modelled from the spec: [createEditableCallback] of ./util/interaction.
    The wrapped handler runs only while the control is neither disabled nor
    read-only; otherwise the call does nothing. Its [ref] argument is not
    modelled. *)
Definition createEditableCallback (notEditable : bool) (fn : list Effect) : list Effect :=
  if notEditable then [] else fn.

Definition useEditableCallback : list Effect -> list Effect :=
  createEditableCallback (disabled props || readOnly props).

(** The tail of [notifyChange]: build the Date from a complete record.
    [notifyChange] gets here only after [isPartialValue] has failed, so
    [hours] and [minutes] are present and [orZero] just reads them. *)
Definition composeDate (next : TimeParts) : Z :=
  let nextDate := match value props with
                  | Some d => time d
                  | None => getDatePart
                  end in
  let h := orZero (hours next) in
  let h := if use12HourClock props
           then (if (h =? 12)%Z then 0 else h) + (match meridiem next with PM => 12 | AM => 0 end)
           else h in
  let nextDate := setHours nextDate h in
  let nextDate := setMinutes nextDate (orZero (minutes next)) in
  let nextDate := match seconds next with
                  | Some s => setSeconds nextDate s
                  | None => nextDate
                  end in
  let nextDate := match milliseconds next with
                  | Some ms => setMilliseconds nextDate ms
                  | None => nextDate
                  end in
  nextDate.

Definition notifyChange (updates : list Update) : list Effect :=
  let nextTimeParts := merge timeParts updates in
  if (match value props with Some _ => true | None => false end)
     && isEmptyValue nextTimeParts (precision props)
  then [OnChange None None]
  else if isPartialValue nextTimeParts (precision props)
  then [SetTimeParts nextTimeParts]
  else [OnChange (Some (composeDate nextTimeParts))
                 (Some (mkMeta (value props) timeParts))].

Definition handleClear : list Effect :=
  useEditableCallback
    (FocusHours ::
     match value props with
     | Some _ => [OnChange None None]
     | None => [SetTimeParts (getValueParts None false)]
     end).

(** [handleChange(part, event)], with [rawValue = event.target.value].
    The Number handed to [notifyChange] is a tracked integer whenever the raw
    value is not empty (lemma [handleChange_cases]), so the last branch of
    [notify] is never taken. *)
Definition handleChange (part : NumPart) (rawValue : string) : list Effect :=
  let currentValue := getPart timeParts part in
  let strValue := orEmptyString currentValue ++ rawValue in
  let numValue := ToNumber strValue in
  let notify (n : Number) :=
    notifyChange
      [SetNum part (if String.eqb rawValue "" then None
                    else match n with Int z => Some z | _ => None end)] in
  Select ::
  if isNaN numValue
     || (negb (String.eqb strValue "")
         && negb (isValid strValue part (use12HourClock props)))
  then
    if isValid rawValue part (use12HourClock props) && negb (isNaN (ToNumber rawValue))
    then notify (ToNumber rawValue)
    else [PreventDefault]
  else notify numValue.

Definition focusNext (delta : Z) : list Effect := [FocusNext delta; Select].

Definition increment (part : Part) (inc : Z) : list Effect :=
  useEditableCallback
    match part with
    | MeridiemPart =>
        notifyChange [SetMeridiem (match meridiem timeParts with AM => PM | PM => AM end)]
        ++ [Select]
    | Num p =>
        let nextPart := orZero (getPart timeParts p) + inc in
        if negb (isValid (String_of nextPart) p (use12HourClock props)) then []
        else notifyChange [SetNum p (Some nextPart)] ++ [Select]
    end.

Definition handleKeyDown (part : Part) (event : KeyEvent) : list Effect :=
  useEditableCallback
    (let k := key event in
     let isMeridiem := match part with MeridiemPart => true | Num _ => false end in
     (if String.eqb k "ArrowUp" then PreventDefault :: increment part 1 else [])
     ++ (if String.eqb k "ArrowDown" then PreventDefault :: increment part (-1) else [])
     ++ (if String.eqb k "ArrowLeft" && (isMeridiem || (selectionStart event - 1 <? 0)%Z)
         then PreventDefault :: focusNext (-1) else [])
     ++ (if String.eqb k "ArrowRight"
            && (isMeridiem || (valueLength event <=? selectionEnd event + 1)%Z)
         then PreventDefault :: focusNext 1 else [])
     ++ (if readOnly props && negb (String.eqb k "Tab") then [PreventDefault] else [])
     ++ (if isMeridiem
         then (if String.eqb k "a" || String.eqb k "A"
               then notifyChange [SetMeridiem AM] else [])
              ++ (if String.eqb k "p" || String.eqb k "P"
                  then notifyChange [SetMeridiem PM] else [])
         else [])).

End Handlers.

(** *** Sessions

    What a user can do to the editor, and a run of such events against
    props that the owner leaves unchanged: each handler sees the segments
    buffered so far, and the trace collects the effects in order. *)
Inductive UserEvent : Type :=
| ChangeEvent (part : NumPart) (rawValue : string)
| KeyDownEvent (part : Part) (event : KeyEvent)
| ClearEvent.

Definition dispatch (props : Props) (timeParts : TimeParts) (e : UserEvent)
  : list Effect :=
  match e with
  | ChangeEvent part rawValue => handleChange props timeParts part rawValue
  | KeyDownEvent part event => handleKeyDown props timeParts part event
  | ClearEvent => handleClear props
  end.

Fixpoint session (props : Props) (state : HookState) (events : list UserEvent)
  : HookState * list Effect :=
  match events with
  | [] => (state, [])
  | e :: rest =>
      let effects := dispatch props (st_timeParts state) e in
      let '(state', trace) := session props (applyEffects state effects) rest in
      (state', (effects ++ trace)%list)
  end.

(** Key presses and clicks on the clear control, the events whose handlers
    sit behind [useEditableCallback]. *)
Definition guardedEvent (e : UserEvent) : bool :=
  match e with
  | ChangeEvent _ _ => false
  | _ => true
  end.

(** *** The text of a segment

    [padStart(str, len, pad)] and the [value] attribute that [TimePartInput]
    gives its input. The [while] loop of [padStart] is run on fuel: [None]
    says the loop has not finished within it. *)
Definition stringOfValue (v : option Z) : string :=
  match v with
  | None => ""
  | Some z => String_of z
  end.

Fixpoint padLoop (fuel : nat) (str : string) (len : Z) (pad : string) : option string :=
  match fuel with
  | O => None
  | S fuel' =>
      if (Z.of_nat (String.length str) <? len)%Z
      then padLoop fuel' (pad ++ str) len pad
      else Some str
  end.

Definition padStart (fuel : nat) (str : option Z) (len : Z) (pad : string) : option string :=
  padLoop fuel (stringOfValue str) len pad.

(** [!value] for a segment value. *)
Definition isFalsy (v : option Z) : bool :=
  match v with
  | None => true
  | Some z => (z =? 0)%Z
  end.

(** [placeholder && !value ? '' : padStart(value, pad || 0, value == null ?
    emptyChar : '0')]; an absent [placeholder] is the empty string and a
    false [pad] is 0. *)
Definition TimePartInput_value (fuel : nat) (value : option Z) (pad : Z)
    (placeholder emptyChar : string) : option string :=
  if negb (String.eqb placeholder "") && isFalsy value then Some ""
  else padStart fuel value pad (if isNull value then emptyChar else "0").

(** The [pad] each input gets: [pad && 2], and [pad && 3] for milliseconds. *)
Definition segmentPad (padValues : bool) (part : NumPart) : Z :=
  if padValues then (match part with Milliseconds => 3 | _ => 2 end) else 0.

(** The text [TimeInput] shows in the input of [part]; it passes no
    [placeholder]. *)
Definition segmentText (fuel : nat) (padValues : bool) (emptyCharacter : string)
    (timeParts : TimeParts) (part : NumPart) : option string :=
  TimePartInput_value fuel (getPart timeParts part) (segmentPad padValues part)
                      "" emptyCharacter.

(** *** Bounds announced for a segment *)

Definition getMin (part : Part) : Z :=
  match part with
  | Num Hours => 1
  | _ => 0
  end.

Definition getMax (props : Props) (part : Part) : Z :=
  match part with
  | Num Hours => if use12HourClock props then 12 else 23
  | Num Milliseconds => 999
  | _ => 59
  end.

(** *** Moving focus between segments

    The nodes [focusNext] finds with [data-focusable], in document order:
    the inputs that [TimeInput] renders for the precision, then the meridiem
    option when the 12-hour clock is on. *)
Definition focusableNodes (props : Props) : list Part :=
  [Num Hours; Num Minutes]
  ++ (match precision props with
      | seconds_ | milliseconds_ => [Num Seconds]
      | minutes_ => []
      end)
  ++ (match precision props with
      | milliseconds_ => [Num Milliseconds]
      | _ => []
      end)
  ++ (if use12HourClock props then [MeridiemPart] else []).

Definition Part_eqb (a b : Part) : bool :=
  match a, b with
  | Num Hours, Num Hours => true
  | Num Minutes, Num Minutes => true
  | Num Seconds, Num Seconds => true
  | Num Milliseconds, Num Milliseconds => true
  | MeridiemPart, MeridiemPart => true
  | _, _ => false
  end.

(** [nodes.indexOf(input)]: the first position, or -1. *)
Fixpoint indexOf (nodes : list Part) (input : Part) : Z :=
  match nodes with
  | [] => -1
  | n :: rest =>
      if Part_eqb n input then 0
      else let i := indexOf rest input in
           if (i <? 0)%Z then -1 else i + 1
  end.

(** [nodes[i]]: [undefined] outside the array. *)
Definition nodeAt (nodes : list Part) (i : Z) : option Part :=
  if (i <? 0)%Z then None else nth_error nodes (Z.to_nat i).

(** The node [focusNext(input, delta)] focuses, if any. *)
Definition focusNextTarget (props : Props) (input : Part) (delta : Z) : option Part :=
  let nodes := focusableNodes props in
  nodeAt nodes (indexOf nodes input + delta).

(** *** External changes

    A run of evaluations against the value and mode the owner supplies at
    each of them, threading the session and the module-level counter. *)
Fixpoint renders (fuel : nat) (state : HookState) (count : Z)
    (supplied : list (ValueProp * ModeProp)) : option (HookState * Z) :=
  match supplied with
  | [] => Some (state, count)
  | (value, use12HourClock) :: rest =>
      match render fuel state count value use12HourClock with
      | Some (_, state', count') => renders fuel state' count' rest
      | None => None
      end
  end.

(** ** Definitions used to state the properties *)

(** The characters of the class [[lo-hi]]. *)
Definition chars (lo hi : ascii) : list ascii :=
  map ascii_of_nat (seq (nat_of_ascii lo) (S (nat_of_ascii hi) - nat_of_ascii lo)).

(** The strings a pattern accepts; finite, since the fragment has no star. *)
Fixpoint lang (r : regex) : list string :=
  match r with
  | Eps => [""]
  | Class lo hi => map (fun c => String c "") (chars lo hi)
  | Seq r1 r2 => flat_map (fun u => map (append u) (lang r2)) (lang r1)
  | Alt r1 r2 => lang r1 ++ lang r2
  | Opt r1 => lang r1 ++ [""]
  end.

Definition patternOf (part : NumPart) (use12HourClock : bool) : regex :=
  match part with
  | Hours => if negb use12HourClock then TESTS_hours else TESTS_hours12
  | Minutes => TESTS_minutes
  | Seconds => TESTS_seconds
  | Milliseconds => TESTS_milliseconds
  end.

(** [!isNaN(+s) && isValid(s, part, use12HourClock)] *)
Definition numericAndValid (s : string) (part : NumPart) (use12HourClock : bool) : bool :=
  negb (isNaN (ToNumber s)) && isValid s part use12HourClock.

(** A buffered segment is well formed when it is absent or its decimal
    rendering passes the validator of its part. *)
Definition segmentOK (use12HourClock : bool) (part : NumPart) (v : option Z) : bool :=
  match v with
  | None => true
  | Some z => isValid (String_of z) part use12HourClock
  end.

Definition validParts (use12HourClock : bool) (p : TimeParts) : bool :=
  forallb (fun part => segmentOK use12HourClock part (getPart p part))
          [Hours; Minutes; Seconds; Milliseconds].

Definition updateOK (use12HourClock : bool) (u : Update) : bool :=
  match u with
  | SetNum part v => segmentOK use12HourClock part v
  | SetMeridiem _ => true
  end.

(** [k] copies of [pad], one after the other. *)
Fixpoint repeatString (pad : string) (k : nat) : string :=
  match k with
  | O => ""
  | S k' => repeatString pad k' ++ pad
  end.

(** Equality of segment values. *)
Definition option_Z_eqb (a b : option Z) : bool :=
  match a, b with
  | Some x, Some y => (x =? y)%Z
  | None, None => true
  | _, _ => false
  end.

(** The integer a canonical decimal rendering stands for. *)
Definition canonicalValue (s : string) : option Z :=
  option_map Z.of_int (NilEmpty.int_of_string s).

(** The least value whose rendering the validator of a part accepts. *)
Definition lowest (use12HourClock : bool) (part : NumPart) : Z :=
  match part with
  | Hours => if use12HourClock then 1 else 0
  | _ => 0
  end.

(** Effects that change what the editor holds or tell the owner. *)
Definition changesOrNotifies (e : Effect) : bool :=
  match e with
  | OnChange _ _ | SetTimeParts _ => true
  | _ => false
  end.

(** The test that guards the reset in [useTimePartState]. *)
Definition differs (state : HookState) (value : ValueProp) (use12HourClock : ModeProp)
  : bool :=
  negb (sameValue (st_value state) value)
  || negb (sameMode (st_use12HourClock state) use12HourClock).

Definition allAbsent : TimeParts := mkTimeParts None None None None AM.

Definition mutatesSegments (e : Effect) : bool :=
  match e with
  | SetTimeParts _ => true
  | _ => false
  end.

(** What an accepted string denotes: [+s] is a tracked integer, the decimal
    value of [s], and that integer renders to a string the validator accepts
    again. *)
Definition acceptedDenotes (part : NumPart) (use12 : bool) (s : string) : bool :=
  negb (String.eqb s "") &&
  match ToNumber s with
  | Int n => (n =? digitsValue s)%Z && isValid (String_of n) part use12
  | _ => false
  end.

(** ** Properties of the matcher *)

Lemma append_assoc (a b c : string) : (a ++ b) ++ c = a ++ (b ++ c).
Proof.
  induction a as [|x a IH]; simpl; [reflexivity | now rewrite IH].
Qed.

Lemma append_empty_r (a : string) : a ++ "" = a.
Proof.
  induction a as [|x a IH]; simpl; [reflexivity | now rewrite IH].
Qed.

Lemma chars_spec (lo hi c : ascii) :
  In c (chars lo hi) <-> inRange lo hi c = true.
Proof.
  unfold chars, inRange. rewrite in_map_iff, andb_true_iff, !Nat.leb_le.
  split.
  - intros (n & <- & Hn). apply in_seq in Hn.
    pose proof (nat_ascii_bounded hi) as Hhi.
    rewrite nat_ascii_embedding by lia. lia.
  - intros [H1 H2]. exists (nat_of_ascii c). split.
    + apply ascii_nat_embedding.
    + apply in_seq. lia.
Qed.

(** The matcher leaves [rest] exactly when the input is a word of the
    pattern followed by [rest]. *)
Lemma run_spec (r : regex) :
  forall s rest, In rest (run r s) <-> exists w, In w (lang r) /\ s = w ++ rest.
Proof.
  induction r as [| lo hi | r1 IH1 r2 IH2 | r1 IH1 r2 IH2 | r1 IH1]; intros s rest; simpl.
  - split.
    + intros [<- | []]. exists "". split; [now left | reflexivity].
    + intros (w & [<- | []] & ->). now left.
  - split.
    + destruct s as [|c s']; [intros [] |].
      destruct (inRange lo hi c) eqn:Hc; [| intros []].
      intros [<- | []]. exists (String c ""). split; [| reflexivity].
      apply in_map_iff. exists c. split; [reflexivity | now apply chars_spec].
    + intros (w & Hw & ->). apply in_map_iff in Hw. destruct Hw as (c & <- & Hc).
      apply chars_spec in Hc. simpl. rewrite Hc. now left.
  - rewrite in_flat_map. split.
    + intros (mid & Hmid & Hrest).
      apply IH1 in Hmid. destruct Hmid as (w1 & Hw1 & ->).
      apply IH2 in Hrest. destruct Hrest as (w2 & Hw2 & ->).
      exists (w1 ++ w2). split; [| now rewrite append_assoc].
      apply in_flat_map. exists w1. split; [assumption |].
      apply in_map_iff. now exists w2.
    + intros (w & Hw & ->). apply in_flat_map in Hw. destruct Hw as (w1 & Hw1 & Hw).
      apply in_map_iff in Hw. destruct Hw as (w2 & <- & Hw2).
      exists (w2 ++ rest). split.
      * apply IH1. exists w1. split; [assumption | now rewrite append_assoc].
      * apply IH2. now exists w2.
  - rewrite in_app_iff, IH1, IH2. split.
    + intros [(w & Hw & ->) | (w & Hw & ->)]; exists w; rewrite in_app_iff; auto.
    + intros (w & Hw & ->). apply in_app_iff in Hw.
      destruct Hw as [Hw | Hw]; [left | right]; now exists w.
  - rewrite in_app_iff, IH1. split.
    + intros [(w & Hw & ->) | [<- | []]].
      * exists w. rewrite in_app_iff. auto.
      * exists "". rewrite in_app_iff. split; [right; now left | reflexivity].
    + intros (w & Hw & ->). apply in_app_iff in Hw.
      destruct Hw as [Hw | [<- | []]]; [left; now exists w | right; now left].
Qed.

Lemma test_spec (r : regex) (s : string) :
  test r s = true <-> In s (lang r).
Proof.
  unfold test. rewrite existsb_exists. split.
  - intros (rest & Hin & Heq). apply String.eqb_eq in Heq. subst rest.
    apply run_spec in Hin. destruct Hin as (w & Hw & ->).
    now rewrite append_empty_r.
  - intros Hin. exists "". split; [| reflexivity].
    apply run_spec. exists s. split; [assumption | now rewrite append_empty_r].
Qed.

Lemma isValid_test (s : string) (part : NumPart) (use12 : bool) :
  isValid s part use12 = test (patternOf part use12) s.
Proof.
  destruct part, use12; reflexivity.
Qed.

Lemma isValid_spec (s : string) (part : NumPart) (use12 : bool) :
  isValid s part use12 = true <-> In s (lang (patternOf part use12)).
Proof.
  rewrite isValid_test. apply test_spec.
Qed.

(** A decidable property that holds of every word of the pattern holds of
    every string the validator accepts. *)
Lemma isValid_forall (f : string -> bool) (part : NumPart) (use12 : bool) :
  forallb f (lang (patternOf part use12)) = true ->
  forall s, isValid s part use12 = true -> f s = true.
Proof.
  intros Hall s Hs. rewrite forallb_forall in Hall.
  apply Hall. now apply isValid_spec.
Qed.

Lemma isValid_ToNumber (s : string) (part : NumPart) (use12 : bool) :
  isValid s part use12 = true ->
  s <> "" /\ ToNumber s = Int (digitsValue s)
  /\ isValid (String_of (digitsValue s)) part use12 = true.
Proof.
  intros Hs.
  assert (H : acceptedDenotes part use12 s = true).
  { revert s Hs. apply isValid_forall. destruct part, use12; vm_compute; reflexivity. }
  unfold acceptedDenotes in H. apply andb_true_iff in H. destruct H as [Hne H].
  apply negb_true_iff, String.eqb_neq in Hne.
  destruct (ToNumber s) as [| n |]; try discriminate.
  apply andb_true_iff in H. destruct H as [Hn Hv]. apply Z.eqb_eq in Hn. subst n.
  auto.
Qed.

Lemma isValid_not_NaN (s : string) (part : NumPart) (use12 : bool) :
  isValid s part use12 = true -> isNaN (ToNumber s) = false.
Proof.
  intros Hs. apply isValid_ToNumber in Hs. destruct Hs as (_ & -> & _). reflexivity.
Qed.

Lemma numericAndValid_isValid (s : string) (part : NumPart) (use12 : bool) :
  numericAndValid s part use12 = isValid s part use12.
Proof.
  unfold numericAndValid. destruct (isValid s part use12) eqn:Hs.
  - now rewrite (isValid_not_NaN _ _ _ Hs).
  - apply andb_false_r.
Qed.

(** A check of every integer below a bound, by enumeration. *)
Lemma forall_below (f : Z -> bool) (N : nat) :
  forallb f (map Z.of_nat (seq 0 N)) = true ->
  forall n, 0 <= n < Z.of_nat N -> f n = true.
Proof.
  intros Hall n Hn. rewrite forallb_forall in Hall. apply Hall.
  apply in_map_iff. exists (Z.to_nat n). split; [lia |]. apply in_seq. lia.
Qed.

(** ** Properties of the date arithmetic *)

Lemma MakeDate_fields (t : Z) :
  MakeDate (Day t)
           (MakeTime (HourFromTime t) (MinFromTime t) (SecFromTime t) (msFromTime t)) = t.
Proof.
  unfold MakeDate, MakeTime, Day, HourFromTime, MinFromTime, SecFromTime, msFromTime,
    msPerDay, msPerHour, msPerMinute, msPerSecond.
  Z.div_mod_to_equations. lia.
Qed.

(** A setter given the field that the local time already has yields the
    instant that local time is read as. *)
Lemma setters_fix (t L : Z) :
  LocalTime t = L ->
  setHours t (HourFromTime L) = UTC L
  /\ setMinutes t (MinFromTime L) = UTC L
  /\ setSeconds t (SecFromTime L) = UTC L
  /\ setMilliseconds t (msFromTime L) = UTC L.
Proof.
  intros <-. unfold setHours, setMinutes, setSeconds, setMilliseconds. cbv zeta.
  now rewrite MakeDate_fields.
Qed.

Lemma getHours_range (t : Z) : 0 <= getHours t < 24.
Proof. unfold getHours, HourFromTime. apply Z.mod_pos_bound. lia. Qed.

Lemma getMinutes_range (t : Z) : 0 <= getMinutes t < 60.
Proof. unfold getMinutes, MinFromTime. apply Z.mod_pos_bound. lia. Qed.

Lemma getSeconds_range (t : Z) : 0 <= getSeconds t < 60.
Proof. unfold getSeconds, SecFromTime. apply Z.mod_pos_bound. lia. Qed.

Lemma getMilliseconds_range (t : Z) : 0 <= getMilliseconds t < 1000.
Proof.
  unfold getMilliseconds, msFromTime, msPerSecond. apply Z.mod_pos_bound. lia.
Qed.

(** Decomposing an hour for the 12-hour clock and converting it back. *)
Lemma hour12_roundtrip (h : Z) :
  0 <= h < 24 ->
  (if ((if (Z.rem h 12 =? 0)%Z then 12 else Z.rem h 12) =? 12)%Z
   then 0
   else (if (Z.rem h 12 =? 0)%Z then 12 else Z.rem h 12))
  + (match (if (h <? 12)%Z then AM else PM) with PM => 12 | AM => 0 end) = h.
Proof.
  intros Hh.
  destruct (Z.eqb_spec (Z.rem h 12) 0) as [H0 | H0];
    destruct (Z.ltb_spec h 12) as [Hlt | Hge]; simpl.
  - Z.to_euclidean_division_equations. lia.
  - Z.to_euclidean_division_equations. lia.
  - destruct (Z.eqb_spec (Z.rem h 12) 12) as [H12 | H12];
      Z.to_euclidean_division_equations; lia.
  - destruct (Z.eqb_spec (Z.rem h 12) 12) as [H12 | H12];
      Z.to_euclidean_division_equations; lia.
Qed.

(** Composing the record read off a value: when the local time of the value
    is shown again by the instant it is read as, every setter lands on that
    instant. *)
Lemma composeDate_getValueParts (p : Props) (v : Date) :
  value p = Some v ->
  keepsLocalTime (time v) ->
  composeDate p (getValueParts (Some v) (use12HourClock p)) = UTC (LocalTime (time v)).
Proof.
  intros Hv Hk. unfold keepsLocalTime in Hk.
  assert (Hchain : setMilliseconds
                     (setSeconds
                        (setMinutes (setHours (time v) (getHours (time v)))
                                    (getMinutes (time v)))
                        (getSeconds (time v)))
                     (getMilliseconds (time v)) = UTC (LocalTime (time v))).
  { unfold getHours, getMinutes, getSeconds, getMilliseconds.
    destruct (setters_fix (time v) eq_refl) as (-> & _).
    destruct (setters_fix (UTC (LocalTime (time v))) Hk) as (_ & -> & _).
    destruct (setters_fix (UTC (LocalTime (time v))) Hk) as (_ & _ & -> & _).
    now destruct (setters_fix (UTC (LocalTime (time v))) Hk) as (_ & _ & _ & ->). }
  unfold composeDate, getValueParts. rewrite Hv.
  destruct (use12HourClock p); cbn [hours minutes seconds milliseconds meridiem orZero].
  - rewrite hour12_roundtrip by apply getHours_range. exact Hchain.
  - exact Hchain.
Qed.

(** A record read off a Date has every segment populated. *)
Lemma getValueParts_complete (v : Date) (use12 : bool) (prec : Precision) :
  isPartialValue (getValueParts (Some v) use12) prec = false
  /\ isEmptyValue (getValueParts (Some v) use12) prec = false.
Proof.
  unfold getValueParts. destruct use12, prec; split; reflexivity.
Qed.

(** C1. Round trip of the codec, for every clock mode and precision.
    Decomposing a Date [v] with [getValueParts] and sending the segments
    through [notifyChange] with [v] as the current value reports the instant
    that the local time of [v] is read as. That instant has the time value
    of [v] whenever [v] is the instant its own local time is read as; it is
    not when [v] is the later of two instants that show one local time
    after the clocks went back. In every case the reported Date decomposes
    to the same hour, minute, second, millisecond and meridiem as [v]; and
    on the 12-hour clock hour 0 is shown as 12 AM and hour 12 as 12 PM. *)
Theorem C1_codec_roundtrip (p : Props) (v : Date) :
  value p = Some v ->
  keepsLocalTime (time v) ->
  let parts := getValueParts (Some v) (use12HourClock p) in
  let recomposed := composeDate p parts in
  notifyChange p parts [] = [OnChange (Some recomposed) (Some (mkMeta (Some v) parts))]
  /\ recomposed = UTC (LocalTime (time v))
  /\ (resolvesToItself (time v) -> recomposed = time v)
  /\ (forall id, getValueParts (Some (mkDate id recomposed)) (use12HourClock p) = parts)
  /\ (getHours (time v) = 0 ->
      hours (getValueParts (Some v) true) = Some 12
      /\ meridiem (getValueParts (Some v) true) = AM)
  /\ (getHours (time v) = 12 ->
      hours (getValueParts (Some v) true) = Some 12
      /\ meridiem (getValueParts (Some v) true) = PM).
Proof.
  intros Hv Hk parts recomposed.
  assert (Hc : recomposed = UTC (LocalTime (time v)))
    by now apply composeDate_getValueParts.
  split; [| split; [exact Hc | split; [| split; [| split]]]].
  - destruct (getValueParts_complete v (use12HourClock p) (precision p)) as [Hp He].
    unfold notifyChange, merge. cbn [fold_left]. fold parts in Hp, He |- *.
    now rewrite Hp, He, andb_false_r, Hv.
  - intros Hr. rewrite Hc. exact Hr.
  - intros id. rewrite Hc. subst parts. unfold getValueParts. cbn [time].
    unfold getHours, getMinutes, getSeconds, getMilliseconds.
    unfold keepsLocalTime in Hk. now rewrite Hk.
  - intros H0. unfold getValueParts. rewrite H0. split; reflexivity.
  - intros H12. unfold getValueParts. rewrite H12. split; reflexivity.
Qed.

(** ** Classification of segment records *)

Ltac by_fields p prec :=
  destruct p as [[?|] [?|] [?|] [?|] ?]; destruct prec; reflexivity.

Lemma isEmptyValue_allRequiredAbsent (p : TimeParts) (prec : Precision) :
  isEmptyValue p prec = allRequiredAbsent p prec.
Proof. by_fields p prec. Qed.

Lemma isPartialValue_not_allRequiredPresent (p : TimeParts) (prec : Precision) :
  isPartialValue p prec = negb (allRequiredPresent p prec).
Proof. by_fields p prec. Qed.

Lemma someButNotAllPresent_code (p : TimeParts) (prec : Precision) :
  someButNotAllPresent p prec = isPartialValue p prec && negb (isEmptyValue p prec).
Proof. by_fields p prec. Qed.

Lemma classify_code (p : TimeParts) (prec : Precision) :
  classify p prec =
  if isEmptyValue p prec then EmptyRecord
  else if isPartialValue p prec then PartialRecord
  else CompleteRecord.
Proof. by_fields p prec. Qed.

Lemma classify_partial_iff (p : TimeParts) (prec : Precision) :
  classify p prec = PartialRecord <-> someButNotAllPresent p prec = true.
Proof.
  destruct p as [[?|] [?|] [?|] [?|] ?]; destruct prec; cbv; split;
    intros H; try reflexivity; discriminate H.
Qed.

(** C6. [isEmptyValue] holds exactly when every field the
    precision requires is absent. [isPartialValue] holds exactly when not
    every required field is present, so it also holds of the all-absent
    record; the records with some but not all required fields present are
    those that satisfy [isPartialValue] and fail [isEmptyValue]. *)
Theorem C6_classification (p : TimeParts) (prec : Precision) :
  isEmptyValue p prec = allRequiredAbsent p prec
  /\ isPartialValue p prec = negb (allRequiredPresent p prec)
  /\ someButNotAllPresent p prec = (isPartialValue p prec && negb (isEmptyValue p prec))
  /\ isEmptyValue allAbsent prec = true
  /\ isPartialValue allAbsent prec = true.
Proof.
  split; [apply isEmptyValue_allRequiredAbsent |].
  split; [apply isPartialValue_not_allRequiredPresent |].
  split; [apply someButNotAllPresent_code |].
  split; destruct prec; reflexivity.
Qed.

(** The all-absent record: [isPartialValue] holds of it although none of its
    required fields is present. *)
Lemma C6_all_absent_is_partial :
  ~ (isPartialValue allAbsent minutes_ = true
     <-> someButNotAllPresent allAbsent minutes_ = true).
Proof.
  intros [H _]. specialize (H eq_refl). discriminate H.
Qed.

(** ** notifyChange *)

Lemma notifyChange_cases (p : Props) (tp : TimeParts) (updates : list Update) :
  notifyChange p tp updates =
  match classify (merge tp updates) (precision p) with
  | EmptyRecord =>
      match value p with
      | Some _ => [OnChange None None]
      | None => [SetTimeParts (merge tp updates)]
      end
  | PartialRecord => [SetTimeParts (merge tp updates)]
  | CompleteRecord =>
      [OnChange (Some (composeDate p (merge tp updates)))
                (Some (mkMeta (value p) tp))]
  end.
Proof.
  unfold notifyChange. rewrite classify_code.
  destruct (isEmptyValue (merge tp updates) (precision p)) eqn:He.
  - destruct (value p); simpl; [reflexivity |].
    assert (Hp : isPartialValue (merge tp updates) (precision p) = true).
    { revert He. generalize (merge tp updates) as q. intros q.
      destruct q as [[?|] [?|] [?|] [?|] ?]; destruct (precision p);
        simpl; intros H; try reflexivity; discriminate H. }
    now rewrite Hp.
  - rewrite andb_false_r.
    destruct (isPartialValue (merge tp updates) (precision p)); reflexivity.
Qed.

(** C2. [notifyChange] merges the updates into the current segments and
    decides by the class of the result: empty with a concrete value present
    calls [onChange(null)]; partial keeps the merged record as the buffered
    segments and calls no [onChange]; complete composes a Date and calls
    [onChange] with it and with the previous value and previous segments. *)
Theorem C2_notifyChange_decision (p : Props) (tp : TimeParts) (updates : list Update)
    (state : HookState) :
  let next := merge tp updates in
  let effects := notifyChange p tp updates in
  (forall v, value p = Some v -> classify next (precision p) = EmptyRecord ->
     effects = [OnChange None None])
  /\ (classify next (precision p) = PartialRecord ->
      effects = [SetTimeParts next]
      /\ onChangeCalls effects = []
      /\ st_timeParts (applyEffects state effects) = next)
  /\ (classify next (precision p) = CompleteRecord ->
      effects = [OnChange (Some (composeDate p next)) (Some (mkMeta (value p) tp))])
  /\ (someButNotAllPresent next (precision p) = true -> onChangeCalls effects = []).
Proof.
  intros next effects. subst effects. rewrite notifyChange_cases. fold next.
  split; [| split; [| split]].
  - intros v Hv Hc. now rewrite Hc, Hv.
  - intros Hc. rewrite Hc. repeat split.
  - intros Hc. now rewrite Hc.
  - intros Hs. apply classify_partial_iff in Hs. now rewrite Hs.
Qed.

(** ** The edit session *)

Lemma sameValue_refl (v : ValueProp) : sameValue v v = true.
Proof. destruct v as [| | d]; simpl; try reflexivity. apply Nat.eqb_refl. Qed.

Lemma sameMode_refl (m : ModeProp) : sameMode m m = true.
Proof. destruct m as [| b]; simpl; [reflexivity | apply Bool.eqb_reflx]. Qed.

Lemma differs_after_reset (value : ValueProp) (use12 : ModeProp) (parts : TimeParts) :
  differs (mkHookState value use12 parts) value use12 = false.
Proof.
  unfold differs. simpl. rewrite sameValue_refl, sameMode_refl. reflexivity.
Qed.

Lemma useTimePartState_in_sync (state : HookState) (count : Z)
    (value : ValueProp) (use12 : ModeProp) :
  differs state value use12 = false ->
  useTimePartState state count value use12 = (st_timeParts state, None, count).
Proof.
  unfold differs, useTimePartState. intros ->. reflexivity.
Qed.

(** While value and mode are as last seen, an evaluation keeps the session
    and its buffered segments, whatever they are. *)
Lemma render_in_sync (fuel : nat) (state : HookState) (count : Z)
    (value : ValueProp) (use12 : ModeProp) :
  differs state value use12 = false ->
  render (S fuel) state count value use12 = Some (st_timeParts state, state, count).
Proof.
  intros H. simpl. now rewrite useTimePartState_in_sync.
Qed.

(** Once the counter has reached 99, an evaluation that finds a difference
    only counts it: the session keeps its stale snapshot and segments. *)
Lemma render_stale (fuel : nat) (state : HookState) (count : Z)
    (value : ValueProp) (use12 : ModeProp) :
  differs state value use12 = true ->
  99 <= count ->
  render (S fuel) state count value use12 = Some (st_timeParts state, state, count + 1).
Proof.
  intros Hd Hc. simpl. unfold useTimePartState. fold (differs state value use12).
  rewrite Hd. cbv zeta.
  destruct (Z.ltb_spec (count + 1) 100) as [Hlt | Hge]; [lia | reflexivity].
Qed.

(** C7. On an evaluation in which the supplied value or 12-hour
    mode differs from the last-seen snapshot, and the module-level counter
    is still below 99 beforehand, the session is reset: the snapshot becomes
    the supplied value and mode, the segments are rederived from them with
    [getValueParts] whatever was buffered, and the evaluation that follows
    finds nothing left to reconcile. *)
Theorem C7_resynchronisation (fuel : nat) (state : HookState) (count : Z)
    (value : ValueProp) (use12 : ModeProp) :
  differs state value use12 = true ->
  count + 1 < 100 ->
  let synced := mkHookState value use12 (getValueParts (dateOf value) (truthy use12)) in
  render (S (S fuel)) state count value use12
  = Some (getValueParts (dateOf value) (truthy use12), synced, count + 1)
  /\ differs synced value use12 = false.
Proof.
  intros Hd Hc synced. split; [| apply differs_after_reset].
  change (render (S (S fuel)) state count value use12)
    with (match useTimePartState state count value use12 with
          | (_, Some state', count') => render (S fuel) state' count' value use12
          | (parts, None, count') => Some (parts, state, count')
          end).
  unfold useTimePartState. fold (differs state value use12). rewrite Hd. cbv zeta.
  destruct (Z.ltb_spec (count + 1) 100) as [_ | Hge]; [| lia].
  fold synced. rewrite render_in_sync by apply differs_after_reset. reflexivity.
Qed.

(** ** Handlers behind the editable guard *)

Lemma useEditableCallback_blocked (p : Props) (fn : list Effect) :
  disabled p || readOnly p = true -> useEditableCallback p fn = [].
Proof.
  unfold useEditableCallback, createEditableCallback. now intros ->.
Qed.

Lemma useEditableCallback_open (p : Props) (fn : list Effect) :
  disabled p || readOnly p = false -> useEditableCallback p fn = fn.
Proof.
  unfold useEditableCallback, createEditableCallback. now intros ->.
Qed.

(** C8. Clear action on an editable control: with a concrete value it calls
    [onChange(null)]; with no value it calls no [onChange] and resets the
    buffered segments to the all-absent record with meridiem AM; either way
    the first thing it does is focus the hours segment. *)
Theorem C8_clear (p : Props) (state : HookState) :
  disabled p || readOnly p = false ->
  (forall v, value p = Some v -> handleClear p = [FocusHours; OnChange None None])
  /\ (value p = None ->
      handleClear p = [FocusHours; SetTimeParts allAbsent]
      /\ onChangeCalls (handleClear p) = []
      /\ st_timeParts (applyEffects state (handleClear p))
         = mkTimeParts None None None None AM)
  /\ (exists rest, handleClear p = FocusHours :: rest).
Proof.
  intros He. unfold handleClear. rewrite (useEditableCallback_open _ _ He).
  split; [| split].
  - intros v ->. reflexivity.
  - intros ->. repeat split.
  - eexists. reflexivity.
Qed.

(** No run of key presses and clear clicks moves a disabled or read-only
    editor. *)
Lemma session_blocked (p : Props) (events : list UserEvent) :
  disabled p || readOnly p = true ->
  forallb guardedEvent events = true ->
  forall state, session p state events = (state, []).
Proof.
  intros Hb. induction events as [| e rest IH]; intros Hg state; [reflexivity |].
  simpl in Hg. apply andb_true_iff in Hg. destruct Hg as [He Hrest].
  assert (Hd : dispatch p (st_timeParts state) e = []).
  { destruct e as [part raw | part event |]; [discriminate He | |];
      unfold dispatch, handleKeyDown, handleClear;
      now apply useEditableCallback_blocked. }
  cbn [session]. rewrite Hd. cbn [applyEffects fold_left].
  now rewrite (IH Hrest state).
Qed.

(** C9. While the control is disabled or read-only, [increment] (numeric
    step and meridiem toggle alike), [handleClear] and [handleKeyDown] issue
    no effect at all: the segment record is not mutated and [onChange] is
    not called, along any run of such events. The same guard keeps the key
    handler from running while read-only, so although the condition of its
    branch [readOnly && key !== 'Tab'] holds of every key other than Tab,
    the [preventDefault] of that branch is never issued: no key is
    suppressed. *)
Theorem C9_suppressed (p : Props) (state : HookState) :
  disabled p || readOnly p = true ->
  let tp := st_timeParts state in
  (forall part inc,
     increment p tp part inc = []
     /\ applyEffects state (increment p tp part inc) = state
     /\ onChangeCalls (increment p tp part inc) = [])
  /\ (handleClear p = []
      /\ applyEffects state (handleClear p) = state
      /\ onChangeCalls (handleClear p) = [])
  /\ (forall part event,
        handleKeyDown p tp part event = []
        /\ applyEffects state (handleKeyDown p tp part event) = state
        /\ onChangeCalls (handleKeyDown p tp part event) = [])
  /\ (forall events, forallb guardedEvent events = true ->
        session p state events = (state, []))
  /\ (readOnly p = true -> forall part event, key event <> "Tab" ->
        readOnly p && negb (String.eqb (key event) "Tab") = true
        /\ ~ In PreventDefault (handleKeyDown p tp part event)).
Proof.
  intros Hb tp.
  assert (Hs : forall events, forallb guardedEvent events = true ->
               session p state events = (state, []))
    by (intros events Hg; now apply session_blocked).
  assert (Hi : forall part inc, increment p tp part inc = []).
  { intros part inc. unfold increment. now apply useEditableCallback_blocked. }
  assert (Hk : forall part event, handleKeyDown p tp part event = []).
  { intros part event. unfold handleKeyDown. now apply useEditableCallback_blocked. }
  assert (Hc : handleClear p = []).
  { unfold handleClear. now apply useEditableCallback_blocked. }
  split; [| split; [| split; [| split]]].
  - intros part inc. now rewrite Hi.
  - now rewrite Hc.
  - intros part event. now rewrite Hk.
  - exact Hs.
  - intros Hr part event Hkey. rewrite Hk, Hr. split; [| now intros []].
    apply String.eqb_neq in Hkey. now rewrite Hkey.
Qed.

(** ** Arrow keys and increment *)

Lemma increment_numeric (p : Props) (tp : TimeParts) (part : NumPart) (inc : Z) :
  disabled p || readOnly p = false ->
  increment p tp (Num part) inc =
  if isValid (String_of (orZero (getPart tp part) + inc)) part (use12HourClock p)
  then (notifyChange p tp [SetNum part (Some (orZero (getPart tp part) + inc))] ++ [Select])%list
  else [].
Proof.
  intros He. unfold increment. rewrite (useEditableCallback_open _ _ He). cbv zeta.
  destruct (isValid _ part (use12HourClock p)); reflexivity.
Qed.

Lemma increment_rejected (p : Props) (tp : TimeParts) (part : NumPart) (inc : Z) :
  isValid (String_of (orZero (getPart tp part) + inc)) part (use12HourClock p) = false ->
  increment p tp (Num part) inc = [].
Proof.
  intros Hv. destruct (disabled p || readOnly p) eqn:He.
  - unfold increment. now apply useEditableCallback_blocked.
  - now rewrite increment_numeric, Hv.
Qed.

Lemma readOnly_of_editable (p : Props) :
  disabled p || readOnly p = false -> readOnly p = false.
Proof. intros H. apply orb_false_iff in H. tauto. Qed.

Lemma handleKeyDown_ArrowUp (p : Props) (tp : TimeParts) (part : NumPart)
    (event : KeyEvent) :
  disabled p || readOnly p = false ->
  key event = "ArrowUp" ->
  handleKeyDown p tp (Num part) event = PreventDefault :: increment p tp (Num part) 1.
Proof.
  intros He Hk. unfold handleKeyDown. rewrite (useEditableCallback_open _ _ He).
  rewrite Hk, (readOnly_of_editable _ He). cbn [String.eqb Ascii.eqb Bool.eqb andb orb negb].
  cbn [app]. now rewrite !app_nil_r.
Qed.

Lemma handleKeyDown_ArrowDown (p : Props) (tp : TimeParts) (part : NumPart)
    (event : KeyEvent) :
  disabled p || readOnly p = false ->
  key event = "ArrowDown" ->
  handleKeyDown p tp (Num part) event = PreventDefault :: increment p tp (Num part) (-1).
Proof.
  intros He Hk. unfold handleKeyDown. rewrite (useEditableCallback_open _ _ He).
  rewrite Hk, (readOnly_of_editable _ He). cbn [String.eqb Ascii.eqb Bool.eqb andb orb negb].
  cbn [app]. now rewrite !app_nil_r.
Qed.

(** An arrow key whose step is rejected leaves at most a [preventDefault]. *)
Lemma handleKeyDown_arrow_rejected (p : Props) (tp : TimeParts) (part : NumPart)
    (event : KeyEvent) (inc : Z) (state : HookState) :
  (key event = "ArrowUp" /\ inc = 1) \/ (key event = "ArrowDown" /\ inc = -1) ->
  isValid (String_of (orZero (getPart tp part) + inc)) part (use12HourClock p) = false ->
  applyEffects state (handleKeyDown p tp (Num part) event) = state
  /\ onChangeCalls (handleKeyDown p tp (Num part) event) = [].
Proof.
  intros Hk Hv. destruct (disabled p || readOnly p) eqn:He.
  - unfold handleKeyDown. rewrite (useEditableCallback_blocked _ _ He). now split.
  - destruct Hk as [[Hk ->] | [Hk ->]].
    + rewrite (handleKeyDown_ArrowUp _ _ _ _ He Hk), (increment_rejected _ _ _ _ Hv).
      now split.
    + rewrite (handleKeyDown_ArrowDown _ _ _ _ He Hk), (increment_rejected _ _ _ _ Hv).
      now split.
Qed.

(** C5. A step of a numeric segment whose result fails the validator is
    dropped: [increment] does nothing and the arrow key leaves the segments
    and [onChange] untouched. A step that is not dropped stores exactly the
    old value plus the step, never a value from the other end of the range.
    In particular Up on hours 23 of the 24-hour clock changes nothing. *)
Theorem C5_increment_boundary (p : Props) (tp : TimeParts) (state : HookState) :
  (forall part inc,
     isValid (String_of (orZero (getPart tp part) + inc)) part (use12HourClock p) = false ->
     increment p tp (Num part) inc = []
     /\ applyEffects state (increment p tp (Num part) inc) = state)
  /\ (forall part event inc,
        (key event = "ArrowUp" /\ inc = 1) \/ (key event = "ArrowDown" /\ inc = -1) ->
        isValid (String_of (orZero (getPart tp part) + inc)) part (use12HourClock p) = false ->
        applyEffects state (handleKeyDown p tp (Num part) event) = state
        /\ onChangeCalls (handleKeyDown p tp (Num part) event) = [])
  /\ (forall part inc,
        increment p tp (Num part) inc = []
        \/ increment p tp (Num part) inc
           = (notifyChange p tp [SetNum part (Some (orZero (getPart tp part) + inc))]
              ++ [Select])%list)
  /\ (use12HourClock p = false -> hours tp = Some 23 ->
      forall event, key event = "ArrowUp" ->
        applyEffects state (handleKeyDown p tp (Num Hours) event) = state
        /\ onChangeCalls (handleKeyDown p tp (Num Hours) event) = []).
Proof.
  split; [| split; [| split]].
  - intros part inc Hv. now rewrite (increment_rejected _ _ _ _ Hv).
  - intros part event inc Hk Hv. now apply handleKeyDown_arrow_rejected with (inc := inc).
  - intros part inc. destruct (disabled p || readOnly p) eqn:He.
    + left. unfold increment. now apply useEditableCallback_blocked.
    + rewrite (increment_numeric _ _ _ _ He).
      destruct (isValid _ part (use12HourClock p)); [now right | now left].
  - intros H24 H23 event Hk.
    apply handleKeyDown_arrow_rejected with (inc := 1); [now left |].
    simpl getPart. rewrite H24, H23. reflexivity.
Qed.



Lemma getPart_assign (tp : TimeParts) (part : NumPart) (v : option Z) :
  getPart (merge tp [SetNum part v]) part = v.
Proof. destruct part; reflexivity. Qed.

(** ** Typing into a segment *)

Lemma append_eq_empty (a b : string) : (a ++ b)%string = "" -> b = "".
Proof.
  destruct a as [|x a]; simpl; [auto | discriminate].
Qed.

Lemma ToNumber_empty : ToNumber "" = Int 0.
Proof. reflexivity. Qed.

Lemma isValid_empty (part : NumPart) (use12 : bool) : isValid "" part use12 = false.
Proof. destruct part, use12; reflexivity. Qed.

(** The outcome of [handleChange], by cases on the raw value, the buffer
    joined with it, and the raw value alone. *)
Lemma handleChange_cases (p : Props) (tp : TimeParts) (part : NumPart) (raw : string) :
  let use12 := use12HourClock p in
  let buffer := orEmptyString (getPart tp part) in
  handleChange p tp part raw =
  Select ::
  (if String.eqb raw ""
   then (if String.eqb buffer "" || isValid buffer part use12
         then notifyChange p tp [SetNum part None]
         else [PreventDefault])
   else if numericAndValid (buffer ++ raw) part use12
   then notifyChange p tp [SetNum part (Some (digitsValue (buffer ++ raw)))]
   else if numericAndValid raw part use12
   then notifyChange p tp [SetNum part (Some (digitsValue raw))]
   else [PreventDefault]).
Proof.
  intros use12 buffer. unfold handleChange. fold buffer. fold use12. cbv zeta.
  f_equal. rewrite !numericAndValid_isValid.
  destruct (String.eqb_spec raw "") as [-> | Hraw].
  - rewrite append_empty_r.
    destruct (String.eqb_spec buffer "") as [-> | Hbuf]; [reflexivity |].
    cbn [negb andb orb].
    destruct (isValid buffer part use12) eqn:Hv.
    + now rewrite (isValid_not_NaN _ _ _ Hv).
    + rewrite orb_true_r, isValid_empty. reflexivity.
  - assert (Hne : String.eqb (buffer ++ raw) "" = false).
    { apply String.eqb_neq. intros H. apply append_eq_empty in H. contradiction. }
    rewrite Hne. cbn [negb andb].
    destruct (isValid (buffer ++ raw) part use12) eqn:Hc.
    + destruct (isValid_ToNumber _ _ _ Hc) as (_ & -> & _). reflexivity.
    + rewrite orb_true_r.
      destruct (isValid raw part use12) eqn:Hr.
      * destruct (isValid_ToNumber _ _ _ Hr) as (_ & -> & _). reflexivity.
      * reflexivity.
Qed.

(** The two keystroke scenarios of the specification, on an editor with no
    value, 24-hour clock, precision minutes. *)
Example typing_1_then_2_into_hours :
  let p := mkProps None false minutes_ false false None in
  let s0 := initialState nullValue (boolMode false) in
  let s1 := applyEffects s0 (handleChange p (st_timeParts s0) Hours "1") in
  let s2 := applyEffects s1 (handleChange p (st_timeParts s1) Hours "2") in
  hours (st_timeParts s1) = Some 1 /\ hours (st_timeParts s2) = Some 12.
Proof. split; reflexivity. Qed.

Example typing_9_then_5_into_minutes :
  let p := mkProps None false minutes_ false false None in
  let s0 := initialState nullValue (boolMode false) in
  let s1 := applyEffects s0 (handleChange p (st_timeParts s0) Minutes "9") in
  let s2 := applyEffects s1 (handleChange p (st_timeParts s1) Minutes "5") in
  minutes (st_timeParts s1) = Some 9 /\ minutes (st_timeParts s2) = Some 5.
Proof. split; reflexivity. Qed.

(** ** The hours validator of the 24-hour clock *)

(** The strings it accepts are the canonical decimal renderings of 0..23. *)
Lemma isValid_hours24_iff (s : string) :
  isValid s Hours false = true <-> exists n, 0 <= n <= 23 /\ s = String_of n.
Proof.
  rewrite isValid_spec. split.
  - intros Hin. vm_compute in Hin.
    repeat (destruct Hin as [<- | Hin];
            [ match goal with
              | |- exists n, _ /\ ?s = _ => exists (digitsValue s)
              end; vm_compute; intuition discriminate |]).
    destruct Hin.
  - intros (n & Hn & ->). apply isValid_spec.
    apply (forall_below (fun k => isValid (String_of k) Hours false) 24);
      [vm_compute; reflexivity | lia].
Qed.

(** C3 at its failing inputs: the 24-hour hours validator rejects every
    zero-padded two-digit string from 00 to 09, which the 12-hour hours
    validator (from 01) and the minutes validator accept. *)
Theorem C3_hours24_rejects_zero_padded :
  map (fun s => isValid s Hours false)
      ["00"; "01"; "02"; "03"; "04"; "05"; "06"; "07"; "08"; "09"]
  = [false; false; false; false; false; false; false; false; false; false]
  /\ map (fun s => isValid s Hours true)
         ["01"; "02"; "03"; "04"; "05"; "06"; "07"; "08"; "09"]
     = [true; true; true; true; true; true; true; true; true]
  /\ map (fun s => isValid s Minutes false)
         ["00"; "01"; "02"; "03"; "04"; "05"; "06"; "07"; "08"; "09"]
     = [true; true; true; true; true; true; true; true; true; true].
Proof. repeat split. Qed.

(** ** Well-formed segments are an invariant of the session *)

Lemma getValueParts_valid (value : option Date) (use12 : bool) :
  validParts use12 (getValueParts value use12) = true.
Proof.
  destruct value as [d|]; [| reflexivity].
  unfold getValueParts, validParts.
  assert (Hm : forall n, 0 <= n < 60 -> isValid (String_of n) Minutes use12 = true).
  { apply (forall_below (fun n => isValid (String_of n) Minutes use12) 60).
    destruct use12; vm_compute; reflexivity. }
  assert (Hs : forall n, 0 <= n < 60 -> isValid (String_of n) Seconds use12 = true).
  { apply (forall_below (fun n => isValid (String_of n) Seconds use12) 60).
    destruct use12; vm_compute; reflexivity. }
  assert (Hms : forall n, 0 <= n < 1000 ->
                isValid (String_of n) Milliseconds use12 = true).
  { apply (forall_below (fun n => isValid (String_of n) Milliseconds use12) 1000).
    destruct use12; vm_compute; reflexivity. }
  assert (Hh : forall n, 0 <= n < 24 ->
               isValid (String_of n) Hours false = true
               /\ isValid (String_of (if (Z.rem n 12 =? 0)%Z then 12 else Z.rem n 12))
                          Hours true = true).
  { intros n Hn. split.
    - revert n Hn. apply (forall_below (fun n => isValid (String_of n) Hours false) 24).
      vm_compute; reflexivity.
    - revert n Hn.
      apply (forall_below
               (fun n => isValid (String_of (if (Z.rem n 12 =? 0)%Z then 12
                                             else Z.rem n 12)) Hours true) 24).
      vm_compute; reflexivity. }
  specialize (Hm _ (getMinutes_range (time d))).
  specialize (Hs _ (getSeconds_range (time d))).
  specialize (Hms _ (getMilliseconds_range (time d))).
  destruct (Hh _ (getHours_range (time d))) as [Hh24 Hh12].
  destruct use12; cbn [forallb getPart hours minutes seconds milliseconds segmentOK];
    rewrite ?Hh24, ?Hh12, Hm, Hs, Hms; reflexivity.
Qed.

Lemma assign_valid (use12 : bool) (tp : TimeParts) (u : Update) :
  validParts use12 tp = true -> updateOK use12 u = true ->
  validParts use12 (assign tp u) = true.
Proof.
  unfold validParts.
  destruct u as [[] v | m]; cbn [forallb getPart assign hours minutes seconds
                                  milliseconds updateOK];
    rewrite !andb_true_iff; intuition.
Qed.

Lemma notifyChange_valid (p : Props) (tp q : TimeParts) (u : Update) :
  validParts (use12HourClock p) tp = true ->
  updateOK (use12HourClock p) u = true ->
  In (SetTimeParts q) (notifyChange p tp [u]) ->
  validParts (use12HourClock p) q = true.
Proof.
  intros Htp Hu Hin. rewrite notifyChange_cases in Hin.
  assert (Hq : validParts (use12HourClock p) (merge tp [u]) = true)
    by now apply assign_valid.
  destruct (classify (merge tp [u]) (precision p)); [destruct (value p) |..];
    simpl in Hin; destruct Hin as [Hin | []]; try discriminate Hin;
    injection Hin as <-; exact Hq.
Qed.

Lemma buffer_of_valid (use12 : bool) (tp : TimeParts) (part : NumPart) :
  validParts use12 tp = true ->
  orEmptyString (getPart tp part) = ""
  \/ isValid (orEmptyString (getPart tp part)) part use12 = true.
Proof.
  unfold validParts. cbn [forallb]. rewrite !andb_true_iff.
  intros (Hh & Hm & Hs & Hms & _).
  assert (H : segmentOK use12 part (getPart tp part) = true) by now destruct part.
  unfold orEmptyString. destruct (getPart tp part) as [z|]; [| now left].
  destruct (z =? 0)%Z; [now left | now right].
Qed.

(** Every record a handler buffers from well-formed segments is well formed. *)
Lemma handleChange_valid (p : Props) (tp q : TimeParts) (part : NumPart) (raw : string) :
  validParts (use12HourClock p) tp = true ->
  In (SetTimeParts q) (handleChange p tp part raw) ->
  validParts (use12HourClock p) q = true.
Proof.
  intros Htp Hin.
  rewrite handleChange_cases in Hin.
  destruct Hin as [Hin | Hin]; [discriminate Hin |].
  rewrite !numericAndValid_isValid in Hin.
  destruct (String.eqb raw "").
  { destruct (_ || _); [now apply notifyChange_valid in Hin |].
    destruct Hin as [Hin | []]. discriminate Hin. }
  destruct (isValid (_ ++ raw) part _) eqn:Hc.
  - apply notifyChange_valid in Hin; [assumption.. |].
    simpl. now apply isValid_ToNumber in Hc.
  - destruct (isValid raw part _) eqn:Hr.
    + apply notifyChange_valid in Hin; [assumption.. |].
      simpl. now apply isValid_ToNumber in Hr.
    + destruct Hin as [Hin | []]. discriminate Hin.
Qed.

Lemma increment_valid (p : Props) (tp q : TimeParts) (part : Part) (inc : Z) :
  validParts (use12HourClock p) tp = true ->
  In (SetTimeParts q) (increment p tp part inc) ->
  validParts (use12HourClock p) q = true.
Proof.
  intros Htp Hin. unfold increment in Hin.
  destruct (disabled p || readOnly p) eqn:He.
  - rewrite (useEditableCallback_blocked _ _ He) in Hin. destruct Hin.
  - rewrite (useEditableCallback_open _ _ He) in Hin. destruct part as [part |].
    + cbv zeta in Hin.
      destruct (isValid _ part (use12HourClock p)) eqn:Hv; simpl negb in Hin;
        cbv iota in Hin; [| destruct Hin].
      apply in_app_iff in Hin. destruct Hin as [Hin | [Hin | []]]; [| discriminate Hin].
      now apply notifyChange_valid in Hin.
    + apply in_app_iff in Hin. destruct Hin as [Hin | [Hin | []]]; [| discriminate Hin].
      now apply notifyChange_valid in Hin.
Qed.

Lemma handleClear_valid (p : Props) (q : TimeParts) :
  In (SetTimeParts q) (handleClear p) ->
  validParts (use12HourClock p) q = true.
Proof.
  unfold handleClear, useEditableCallback, createEditableCallback.
  destruct (disabled p || readOnly p); [intros [] |].
  destruct (value p); simpl; intros [H | [H | []]]; try discriminate H.
  injection H as <-. reflexivity.
Qed.

Lemma handleKeyDown_valid (p : Props) (tp q : TimeParts) (part : Part) (event : KeyEvent) :
  validParts (use12HourClock p) tp = true ->
  In (SetTimeParts q) (handleKeyDown p tp part event) ->
  validParts (use12HourClock p) q = true.
Proof.
  intros Htp Hin. unfold handleKeyDown, useEditableCallback, createEditableCallback in Hin.
  destruct (disabled p || readOnly p); [destruct Hin |]. cbv zeta in Hin.
  repeat (apply in_app_iff in Hin; destruct Hin as [Hin | Hin]).
  - destruct (String.eqb (key event) "ArrowUp"); [| destruct Hin].
    destruct Hin as [Hin | Hin]; [discriminate Hin | now apply increment_valid in Hin].
  - destruct (String.eqb (key event) "ArrowDown"); [| destruct Hin].
    destruct Hin as [Hin | Hin]; [discriminate Hin | now apply increment_valid in Hin].
  - destruct (_ && _); [| destruct Hin].
    destruct Hin as [Hin | [Hin | [Hin | []]]]; discriminate Hin.
  - destruct (_ && _); [| destruct Hin].
    destruct Hin as [Hin | [Hin | [Hin | []]]]; discriminate Hin.
  - destruct (_ && _); [| destruct Hin]. destruct Hin as [Hin | []]. discriminate Hin.
  - destruct part; [destruct Hin |].
    apply in_app_iff in Hin. destruct Hin as [Hin | Hin].
    + destruct (_ || _); [| destruct Hin]. now apply notifyChange_valid in Hin.
    + destruct (_ || _); [| destruct Hin]. now apply notifyChange_valid in Hin.
Qed.

(** The buffered segments stay well formed along a session: after mounting,
    after any resynchronisation, and after the effects of any handler. *)
Lemma applyEffects_valid (use12 : bool) (es : list Effect) :
  (forall q, In (SetTimeParts q) es -> validParts use12 q = true) ->
  forall state, validParts use12 (st_timeParts state) = true ->
  validParts use12 (st_timeParts (applyEffects state es)) = true.
Proof.
  unfold applyEffects. induction es as [| e es IH]; intros Hes state Hst; [exact Hst |].
  simpl. apply IH.
  - intros q Hq. apply Hes. now right.
  - destruct e; try exact Hst. simpl. apply Hes. now left.
Qed.

Lemma dispatch_valid (p : Props) (tp q : TimeParts) (e : UserEvent) :
  validParts (use12HourClock p) tp = true ->
  In (SetTimeParts q) (dispatch p tp e) ->
  validParts (use12HourClock p) q = true.
Proof.
  intros Htp Hin. destruct e as [part raw | part event |]; simpl in Hin.
  - now apply handleChange_valid in Hin.
  - now apply handleKeyDown_valid in Hin.
  - now apply handleClear_valid in Hin.
Qed.

Lemma session_valid (p : Props) (events : list UserEvent) :
  forall state,
    validParts (use12HourClock p) (st_timeParts state) = true ->
    validParts (use12HourClock p) (st_timeParts (fst (session p state events))) = true.
Proof.
  induction events as [| e rest IH]; intros state Hst; [exact Hst |].
  cbn [session].
  specialize (IH (applyEffects state (dispatch p (st_timeParts state) e))).
  destruct (session p (applyEffects state (dispatch p (st_timeParts state) e)) rest)
    as [state' trace].
  apply IH. apply applyEffects_valid; [| exact Hst].
  intros q Hq. now apply dispatch_valid in Hq.
Qed.

(** From mounting on, whatever the user does, the buffer of every segment
    meets the hypothesis under which typing is characterised above. *)
Lemma session_buffer_ok (p : Props) (events : list UserEvent) (part : NumPart) :
  let state := fst (session p (initialState (valueProp p) (use12HourClockProp p)) events) in
  orEmptyString (getPart (st_timeParts state) part) = ""
  \/ isValid (orEmptyString (getPart (st_timeParts state) part)) part
             (use12HourClock p) = true.
Proof.
  intros state. apply buffer_of_valid. subst state. apply session_valid.
  apply getValueParts_valid.
Qed.

(** ** The validator, by value *)

Lemma canonicalValue_String_of (n : Z) : canonicalValue (String_of n) = Some n.
Proof.
  unfold canonicalValue, String_of. rewrite NilEmpty.isi. simpl.
  now rewrite DecimalZ.of_to.
Qed.

Lemma String_of_inj (a b : Z) : String_of a = String_of b -> a = b.
Proof.
  intros H. apply (f_equal canonicalValue) in H.
  rewrite !canonicalValue_String_of in H. now injection H.
Qed.

Lemma getMax_below_1000 (p : Props) (part : NumPart) : getMax p (Num part) < 1000.
Proof. destruct part; simpl; try lia. destruct (use12HourClock p); lia. Qed.

Lemma lowest_nonneg (use12 : bool) (part : NumPart) : 0 <= lowest use12 part.
Proof. destruct part, use12; simpl; lia. Qed.

(** The rendering of an integer passes the validator of a part exactly when
    the integer lies between the least accepted value and [getMax]; the
    least accepted value is [getMin], except for hours on the 24-hour clock,
    where 0 is accepted although [getMin] says 1. *)
Lemma isValid_range (p : Props) (part : NumPart) (n : Z) :
  (isValid (String_of n) part (use12HourClock p) = true
   <-> lowest (use12HourClock p) part <= n <= getMax p (Num part))
  /\ lowest (use12HourClock p) part
     = (if negb (use12HourClock p) && Part_eqb (Num part) (Num Hours)
        then 0 else getMin (Num part)).
Proof.
  split; [| destruct part, (use12HourClock p); reflexivity].
  set (use12 := use12HourClock p).
  set (lo := lowest use12 part). set (hi := getMax p (Num part)).
  split.
  - intros Hv.
    assert (H : (fun w => match canonicalValue w with
                          | Some k => (lo <=? k)%Z && (k <=? hi)%Z
                          | None => false
                          end) (String_of n) = true).
    { revert Hv. generalize (String_of n). apply isValid_forall.
      subst lo hi use12. unfold getMax.
      destruct part, (use12HourClock p); vm_compute; reflexivity. }
    cbv beta in H. rewrite canonicalValue_String_of in H.
    apply andb_true_iff in H. lia.
  - intros Hn.
    pose (f := fun k => negb ((lo <=? k)%Z && (k <=? hi)%Z)
                        || isValid (String_of k) part use12).
    assert (H : f n = true).
    { apply (forall_below f 1000).
      - subst f lo hi use12. unfold getMax.
        destruct part, (use12HourClock p); vm_compute; reflexivity.
      - pose proof (getMax_below_1000 p part). pose proof (lowest_nonneg use12 part).
        subst lo hi. lia. }
    unfold f in H. apply orb_true_iff in H. destruct H as [H | H]; [| exact H].
    apply negb_true_iff, andb_false_iff in H. lia.
Qed.

(** The width of the text a validator accepts. *)
Lemma digits_in_lang (s : string) :
  allChars isDigit s = true -> (1 <= String.length s <= 3)%nat ->
  In s (lang (Quant digit 1 3)).
Proof.
  intros Hd Hl. apply test_spec.
  destruct s as [| c1 [| c2 [| c3 [| c4 s]]]]; simpl in Hl; try lia;
    simpl in Hd; rewrite ?andb_true_iff in Hd; unfold isDigit in Hd;
    unfold test, Quant, digit; simpl.
  - destruct Hd as [H1 _]. rewrite H1. reflexivity.
  - destruct Hd as (H1 & H2 & _). rewrite H1. simpl. rewrite H2. reflexivity.
  - destruct Hd as (H1 & H2 & H3 & _). rewrite H1. simpl. rewrite H2. simpl.
    rewrite H3. reflexivity.
Qed.

(** The strings a validator accepts, read as numbers: one to two decimal
    digits (three for milliseconds) whose value lies between the least
    accepted value and [getMax]; and, for hours on the 24-hour clock only,
    no two-digit string that starts with 0. *)
Theorem isValid_characterised (p : Props) (part : NumPart) (s : string) :
  isValid s part (use12HourClock p) = true
  <-> allChars isDigit s = true
      /\ (1 <= String.length s <= (match part with Milliseconds => 3 | _ => 2 end))%nat
      /\ lowest (use12HourClock p) part <= digitsValue s <= getMax p (Num part)
      /\ (part = Hours -> use12HourClock p = false ->
          forall c, s <> String "0" (String c "")).
Proof.
  set (use12 := use12HourClock p).
  set (ok := fun w : string =>
               allChars isDigit w
               && (1 <=? String.length w)%nat
               && (String.length w <=? (match part with Milliseconds => 3 | _ => 2 end))%nat
               && (lowest use12 part <=? digitsValue w)%Z
               && (digitsValue w <=? getMax p (Num part))%Z
               && negb (match part, use12, w with
                        | Hours, false, String "0"%char (String _ "") => true
                        | _, _, _ => false
                        end)).
  assert (Hok : forall w, ok w = true <->
            allChars isDigit w = true
            /\ (1 <= String.length w <= (match part with Milliseconds => 3 | _ => 2 end))%nat
            /\ lowest use12 part <= digitsValue w <= getMax p (Num part)
            /\ (part = Hours -> use12 = false -> forall c, w <> String "0" (String c ""))).
  { intros w. unfold ok. rewrite !andb_true_iff, !Nat.leb_le, !Z.leb_le, negb_true_iff.
    split.
    - intros (((((H1 & H2) & H3) & H4) & H5) & H6). repeat split; try assumption.
      intros -> Hu c ->. rewrite Hu in H6. discriminate H6.
    - intros (H1 & (H2 & H3) & (H4 & H5) & H6). repeat split; try assumption.
      destruct part; try reflexivity. destruct use12 eqn:Hu; [reflexivity |].
      destruct w as [| c1 w1]; [reflexivity |].
      destruct (Ascii.eqb_spec c1 "0") as [-> | Hc].
      + destruct w1 as [| c2 [| c3 w]]; try reflexivity.
        exfalso. now apply (H6 eq_refl eq_refl c2).
      + destruct c1 as [[] [] [] [] [] [] [] []]; try reflexivity. now elim Hc. }
  rewrite <- Hok. split.
  - revert s. apply isValid_forall. subst ok use12. unfold getMax.
    destruct part, (use12HourClock p); vm_compute; reflexivity.
  - intros H.
    assert (Hin : In s (lang (Quant digit 1 3))).
    { apply Hok in H. destruct H as (Hd & Hl & _). apply digits_in_lang; [exact Hd |].
      destruct part; lia. }
    assert (Hall : forallb (fun w => negb (ok w) || isValid w part use12)
                           (lang (Quant digit 1 3)) = true).
    { subst ok use12. unfold getMax.
      destruct part, (use12HourClock p); vm_compute; reflexivity. }
    rewrite forallb_forall in Hall. specialize (Hall s Hin).
    rewrite H in Hall. exact Hall.
Qed.

(** ** padStart and the text of a segment *)

Lemma length_append (a b : string) :
  String.length (a ++ b) = (String.length a + String.length b)%nat.
Proof. induction a as [| c a IH]; simpl; [reflexivity | now rewrite IH]. Qed.

Lemma padLoop_steps (pad : string) :
  pad <> "" ->
  forall fuel str len,
    (Z.to_nat (len - Z.of_nat (String.length str)) < fuel)%nat ->
    exists k,
      padLoop fuel str len pad = Some (repeatString pad k ++ str)
      /\ len <= Z.of_nat (String.length (repeatString pad k ++ str))
      /\ (k = O \/ Z.of_nat (String.length (repeatString pad (pred k) ++ str)) < len).
Proof.
  intros Hpad. induction fuel as [| fuel IH]; intros str len Hfuel; [lia |].
  cbn [padLoop]. destruct (Z.ltb_spec (Z.of_nat (String.length str)) len) as [Hlt | Hge].
  - assert (Hp : (1 <= String.length pad)%nat).
    { destruct pad; [contradiction | simpl; lia]. }
    destruct (IH (pad ++ str) len) as (k & Hrun & Hlen & Hmin).
    { rewrite length_append. lia. }
    exists (S k). cbn [repeatString]. rewrite append_assoc.
    split; [exact Hrun |]. split; [exact Hlen |]. right. cbn [pred].
    destruct Hmin as [-> | Hmin]; [exact Hlt |].
    destruct k as [| k]; [exact Hlt |]. cbn [pred] in Hmin.
    cbn [repeatString]. now rewrite append_assoc.
  - exists O. cbn [repeatString append]. split; [reflexivity |]. split; [lia | now left].
Qed.

(** [padStart] with a pad that is not empty returns once it has fuel for
    [len] rounds: the result is the string of the value behind the fewest
    copies of the pad that bring it to [len] characters or more, it is the
    string itself when that is long enough already, and with a pad of one
    character its length is the larger of [len] and the length of the
    string. *)
Theorem padStart_returns (fuel : nat) (str : option Z) (len : Z) (pad : string) :
  pad <> "" ->
  (Z.to_nat len < fuel)%nat ->
  exists k,
    padStart fuel str len pad = Some (repeatString pad k ++ stringOfValue str)
    /\ len <= Z.of_nat (String.length (repeatString pad k ++ stringOfValue str))
    /\ (k = O \/ Z.of_nat (String.length (repeatString pad (pred k) ++ stringOfValue str))
                 < len)
    /\ (len <= Z.of_nat (String.length (stringOfValue str)) -> k = O)
    /\ (String.length pad = 1%nat ->
        Z.of_nat (String.length (repeatString pad k ++ stringOfValue str))
        = Z.max len (Z.of_nat (String.length (stringOfValue str)))).
Proof.
  intros Hpad Hfuel. unfold padStart.
  destruct (@padLoop_steps pad Hpad fuel (stringOfValue str) len) as (k & Hrun & Hlen & Hmin);
    [lia |].
  exists k. split; [exact Hrun |]. split; [exact Hlen |]. split; [exact Hmin |].
  assert (Hgrow : forall j, (String.length (stringOfValue str)
                             <= String.length (repeatString pad j ++ stringOfValue str))%nat).
  { intros j. rewrite length_append. lia. }
  split.
  - intros Hlong. destruct Hmin as [-> | Hmin]; [reflexivity |].
    specialize (Hgrow (pred k)). lia.
  - intros H1. destruct Hmin as [-> | Hmin].
    + cbn [repeatString append] in *. lia.
    + destruct k as [| k]; cbn [pred] in Hmin.
      * cbn [repeatString append] in *. lia.
      * specialize (Hgrow k). revert Hlen Hmin.
        cbn [repeatString]. rewrite append_assoc, !length_append, H1.
        rewrite length_append in Hgrow. lia.
Qed.

Lemma padLoop_empty_pad (fuel : nat) (str : string) (len : Z) :
  Z.of_nat (String.length str) < len -> padLoop fuel str len "" = None.
Proof.
  intros Hlt. induction fuel as [| fuel IH]; [reflexivity |].
  cbn [padLoop append]. destruct (Z.ltb_spec (Z.of_nat (String.length str)) len); [exact IH | lia].
Qed.

(** [padStart] with the empty pad never returns when the string is shorter
    than [len]: whatever the fuel, the loop is still running. So an absent
    segment hangs the rendering of its input when [emptyCharacter] is the
    empty string and values are padded. *)
Theorem padStart_empty_pad_loops (fuel : nat) (str : option Z) (len : Z) :
  Z.of_nat (String.length (stringOfValue str)) < len ->
  padStart fuel str len "" = None
  /\ (forall (tp : TimeParts) (part : NumPart),
        getPart tp part = None -> segmentText fuel true "" tp part = None).
Proof.
  intros Hlt. split; [now apply padLoop_empty_pad |].
  intros tp part Habs. unfold segmentText, TimePartInput_value, padStart.
  rewrite Habs. cbn [String.eqb negb andb isNull stringOfValue].
  apply padLoop_empty_pad. destruct part; simpl; lia.
Qed.

(** The text shown for a buffered value that passes its validator: the loop
    of [padStart] ends within three rounds, the text reads back as the value
    through unary plus, and with padded values it is exactly two characters
    wide, three for milliseconds. *)
Theorem segmentText_roundtrip (p : Props) (tp : TimeParts) (part : NumPart) (n : Z)
    (fuel : nat) (padValues : bool) (emptyCharacter : string) :
  getPart tp part = Some n ->
  isValid (String_of n) part (use12HourClock p) = true ->
  exists text,
    segmentText (4 + fuel) padValues emptyCharacter tp part = Some text
    /\ ToNumber text = Int n
    /\ (padValues = true ->
        Z.of_nat (String.length text) = segmentPad true part).
Proof.
  intros Hget Hv. apply isValid_range in Hv.
  pose proof (getMax_below_1000 p part) as Hmax.
  pose proof (lowest_nonneg (use12HourClock p) part) as Hlo.
  unfold segmentText. rewrite Hget.
  pose (f := fun k =>
          negb ((lowest (use12HourClock p) part <=? k)%Z
                && (k <=? getMax p (Num part))%Z)
          ||
          match TimePartInput_value (4 + fuel) (Some k) (segmentPad padValues part)
                                    "" emptyCharacter with
          | Some text =>
              match ToNumber text with
              | Int m => (m =? k)%Z
              | _ => false
              end
              && (negb padValues
                  || (Z.of_nat (String.length text) =? segmentPad true part)%Z)
          | None => false
          end).
  assert (Hf : f n = true).
  { apply (forall_below f 1000); [| lia].
    subst f. unfold getMax.
    destruct padValues, part, (use12HourClock p); vm_compute; reflexivity. }
  unfold f in Hf. apply orb_true_iff in Hf. destruct Hf as [Hf | Hf].
  { apply negb_true_iff, andb_false_iff in Hf. lia. }
  destruct (TimePartInput_value (4 + fuel) (Some n) (segmentPad padValues part)
                                "" emptyCharacter) as [text |]; [| discriminate Hf].
  exists text. split; [reflexivity |].
  apply andb_true_iff in Hf. destruct Hf as [Hnum Hw].
  destruct (ToNumber text) as [| m |]; try discriminate Hnum.
  apply Z.eqb_eq in Hnum. subst m. split; [reflexivity |].
  intros ->. simpl in Hw. now apply Z.eqb_eq in Hw.
Qed.

(** The text the editor shows against the validator that reads it back:
    with or without padding, the text of a valid value passes the validator
    of its part, except that the padded texts 00 to 09 of the hours are
    rejected on the 24-hour clock. *)
Theorem segmentText_revalidates (p : Props) (tp : TimeParts) (part : NumPart) (n : Z)
    (fuel : nat) (padValues : bool) (emptyCharacter : string) :
  getPart tp part = Some n ->
  isValid (String_of n) part (use12HourClock p) = true ->
  exists text,
    segmentText (4 + fuel) padValues emptyCharacter tp part = Some text
    /\ isValid text part (use12HourClock p)
       = negb (padValues && Part_eqb (Num part) (Num Hours)
               && negb (use12HourClock p) && (n <=? 9)%Z).
Proof.
  intros Hget Hv. apply isValid_range in Hv.
  pose proof (getMax_below_1000 p part) as Hmax.
  pose proof (lowest_nonneg (use12HourClock p) part) as Hlo.
  unfold segmentText. rewrite Hget.
  pose (f := fun k =>
          negb ((lowest (use12HourClock p) part <=? k)%Z
                && (k <=? getMax p (Num part))%Z)
          ||
          match TimePartInput_value (4 + fuel) (Some k) (segmentPad padValues part)
                                    "" emptyCharacter with
          | Some text =>
              Bool.eqb (isValid text part (use12HourClock p))
                       (negb (padValues && Part_eqb (Num part) (Num Hours)
                              && negb (use12HourClock p) && (k <=? 9)%Z))
          | None => false
          end).
  assert (Hf : f n = true).
  { apply (forall_below f 1000); [| lia].
    subst f. unfold getMax.
    destruct padValues, part, (use12HourClock p); vm_compute; reflexivity. }
  unfold f in Hf. apply orb_true_iff in Hf. destruct Hf as [Hf | Hf].
  { apply negb_true_iff, andb_false_iff in Hf. lia. }
  destruct (TimePartInput_value (4 + fuel) (Some n) (segmentPad padValues part)
                                "" emptyCharacter) as [text |]; [| discriminate Hf].
  exists text. split; [reflexivity |]. now apply Bool.eqb_prop in Hf.
Qed.

(** ** Composing a Date from segments *)

(** The fields of a time value assembled from fields in range. *)
Lemma broken_down (d h m s x : Z) :
  0 <= h < 24 -> 0 <= m < 60 -> 0 <= s < 60 -> 0 <= x < 1000 ->
  Day (MakeDate d (MakeTime h m s x)) = d
  /\ HourFromTime (MakeDate d (MakeTime h m s x)) = h
  /\ MinFromTime (MakeDate d (MakeTime h m s x)) = m
  /\ SecFromTime (MakeDate d (MakeTime h m s x)) = s
  /\ msFromTime (MakeDate d (MakeTime h m s x)) = x.
Proof.
  intros Hh Hm Hs Hx.
  unfold MakeDate, MakeTime, Day, HourFromTime, MinFromTime, SecFromTime, msFromTime,
    msPerDay, msPerHour, msPerMinute, msPerSecond.
  repeat split; Z.div_mod_to_equations; lia.
Qed.

Lemma fields_in_range (t : Z) :
  0 <= HourFromTime t < 24 /\ 0 <= MinFromTime t < 60
  /\ 0 <= SecFromTime t < 60 /\ 0 <= msFromTime t < 1000.
Proof.
  unfold HourFromTime, MinFromTime, SecFromTime, msFromTime, msPerSecond.
  repeat split; try apply Z.mod_pos_bound; lia.
Qed.

Section Setters.

Variables d h m s x : Z.
Hypothesis Hh : 0 <= h < 24.
Hypothesis Hm : 0 <= m < 60.
Hypothesis Hs : 0 <= s < 60.
Hypothesis Hx : 0 <= x < 1000.
Hypothesis Hday : noSkippedTime d.
Variable t : Z.
Hypothesis Ht : LocalTime t = MakeDate d (MakeTime h m s x).

Lemma setHours_fields (h' : Z) :
  0 <= h' < 24 ->
  LocalTime (setHours t h') = MakeDate d (MakeTime h' m s x).
Proof.
  intros Hh'. unfold setHours. cbv zeta. rewrite Ht.
  destruct (broken_down d Hh Hm Hs Hx) as (-> & _ & -> & -> & ->).
  apply Hday. now destruct (broken_down d Hh' Hm Hs Hx).
Qed.

Lemma setMinutes_fields (m' : Z) :
  0 <= m' < 60 ->
  LocalTime (setMinutes t m') = MakeDate d (MakeTime h m' s x).
Proof.
  intros Hm'. unfold setMinutes. cbv zeta. rewrite Ht.
  destruct (broken_down d Hh Hm Hs Hx) as (-> & -> & _ & -> & ->).
  apply Hday. now destruct (broken_down d Hh Hm' Hs Hx).
Qed.

Lemma setSeconds_fields (s' : Z) :
  0 <= s' < 60 ->
  LocalTime (setSeconds t s') = MakeDate d (MakeTime h m s' x).
Proof.
  intros Hs'. unfold setSeconds. cbv zeta. rewrite Ht.
  destruct (broken_down d Hh Hm Hs Hx) as (-> & -> & -> & _ & ->).
  apply Hday. now destruct (broken_down d Hh Hm Hs' Hx).
Qed.

Lemma setMilliseconds_fields (x' : Z) :
  0 <= x' < 1000 ->
  LocalTime (setMilliseconds t x') = MakeDate d (MakeTime h m s x').
Proof.
  intros Hx'. unfold setMilliseconds. cbv zeta. rewrite Ht.
  destruct (broken_down d Hh Hm Hs Hx) as (-> & -> & -> & -> & _).
  apply Hday. now destruct (broken_down d Hh Hm Hs Hx').
Qed.

End Setters.

(** The local time [composeDate] arrives at, field by field, on a day none
    of whose local times is skipped. *)
Lemma composeDate_local (p : Props) (next : TimeParts) (h m : Z) :
  hours next = Some h -> minutes next = Some m ->
  let basis := match value p with Some d => time d | None => getDatePart p end in
  let h24 := if use12HourClock p
             then (if (h =? 12)%Z then 0 else h)
                  + (match meridiem next with PM => 12 | AM => 0 end)
             else h in
  noSkippedTime (Day (LocalTime basis)) ->
  0 <= h24 < 24 -> 0 <= m < 60 ->
  (forall s, seconds next = Some s -> 0 <= s < 60) ->
  (forall x, milliseconds next = Some x -> 0 <= x < 1000) ->
  LocalTime (composeDate p next)
  = MakeDate (Day (LocalTime basis))
      (MakeTime h24 m
         (match seconds next with Some s => s | None => SecFromTime (LocalTime basis) end)
         (match milliseconds next with Some x => x | None => msFromTime (LocalTime basis) end)).
Proof.
  intros Hh Hm basis h24 Hday Hh24 Hm60 Hs Hx.
  unfold composeDate. fold basis. rewrite Hh, Hm. cbn [orZero]. fold h24.
  destruct (fields_in_range (LocalTime basis)) as (R1 & R2 & R3 & R4).
  pose proof (eq_sym (MakeDate_fields (LocalTime basis))) as H0.
  pose proof (@setHours_fields _ _ _ _ _ R1 R2 R3 R4 Hday _ H0 h24 Hh24) as H1.
  pose proof (@setMinutes_fields _ _ _ _ _ Hh24 R2 R3 R4 Hday _ H1 m Hm60) as H2.
  destruct (seconds next) as [s |].
  - specialize (Hs s eq_refl).
    pose proof (@setSeconds_fields _ _ _ _ _ Hh24 Hm60 R3 R4 Hday _ H2 s Hs) as H3.
    destruct (milliseconds next) as [x |]; [| exact H3].
    exact (@setMilliseconds_fields _ _ _ _ _ Hh24 Hm60 Hs R4 Hday _ H3 x (Hx x eq_refl)).
  - destruct (milliseconds next) as [x |]; [| exact H2].
    exact (@setMilliseconds_fields _ _ _ _ _ Hh24 Hm60 R3 R4 Hday _ H2 x (Hx x eq_refl)).
Qed.

Lemma validParts_fields (use12 : bool) (next : TimeParts) :
  validParts use12 next = true ->
  segmentOK use12 Hours (hours next) = true
  /\ segmentOK use12 Minutes (minutes next) = true
  /\ segmentOK use12 Seconds (seconds next) = true
  /\ segmentOK use12 Milliseconds (milliseconds next) = true.
Proof.
  unfold validParts. cbn [forallb getPart]. rewrite !andb_true_iff. tauto.
Qed.

(** Decomposing what was composed, when the clocks skip no local time on
    the calendar day of the basis Date. For a complete record of valid
    segments (with meridiem AM when the 12-hour clock is off), the Date that
    [composeDate] builds decomposes to the same hours, minutes and meridiem;
    its seconds and milliseconds are those of the record where the record
    has them and those of the basis Date where it has not; and it lies on
    the same calendar day as the basis. *)
Lemma composeDate_decomposes (p : Props) (next : TimeParts) (id : nat) :
  validParts (use12HourClock p) next = true ->
  isPartialValue next (precision p) = false ->
  (use12HourClock p = false -> meridiem next = AM) ->
  let basis := match value p with Some d => time d | None => getDatePart p end in
  noSkippedTime (Day (LocalTime basis)) ->
  let back := getValueParts (Some (mkDate id (composeDate p next))) (use12HourClock p) in
  hours back = hours next
  /\ minutes back = minutes next
  /\ meridiem back = meridiem next
  /\ seconds back
     = Some (match seconds next with Some s => s | None => getSeconds basis end)
  /\ milliseconds back
     = Some (match milliseconds next with Some x => x | None => getMilliseconds basis end)
  /\ Day (LocalTime (composeDate p next)) = Day (LocalTime basis).
Proof.
  intros Hvalid Hcomplete Hmer basis Hday back.
  destruct (validParts_fields _ _ Hvalid) as (Vh & Vm & Vs & Vx).
  destruct (hours next) as [h |] eqn:Hh;
    [| destruct next, (precision p); simpl in Hh; subst; discriminate Hcomplete].
  destruct (minutes next) as [m |] eqn:Hm;
    [| destruct next as [? [?|] ? ? ?], (precision p); simpl in Hm, Hh; subst;
       discriminate].
  cbn [segmentOK] in Vh, Vm.
  apply (isValid_range p Hours h) in Vh. apply (isValid_range p Minutes m) in Vm.
  assert (Rs : forall s, seconds next = Some s -> 0 <= s < 60).
  { intros s Hs. rewrite Hs in Vs. cbn [segmentOK] in Vs.
    apply (isValid_range p Seconds s) in Vs. simpl in Vs. lia. }
  assert (Rx : forall x, milliseconds next = Some x -> 0 <= x < 1000).
  { intros x Hx. rewrite Hx in Vx. cbn [segmentOK] in Vx.
    apply (isValid_range p Milliseconds x) in Vx. simpl in Vx. lia. }
  assert (Hm60 : 0 <= m < 60) by (simpl in Vm; lia).
  pose (h24 := if use12HourClock p
               then (if (h =? 12)%Z then 0 else h)
                    + (match meridiem next with PM => 12 | AM => 0 end)
               else h).
  assert (Hh24 : 0 <= h24 < 24).
  { subst h24. unfold lowest, getMax in Vh.
    destruct (use12HourClock p); [| lia].
    destruct (Z.eqb_spec h 12), (meridiem next); lia. }
  pose proof (@composeDate_local p next h m Hh Hm Hday Hh24 Hm60 Rs Rx) as Hlocal.
  cbv zeta in Hlocal. fold basis in Hlocal. fold h24 in Hlocal.
  set (s' := match seconds next with
             | Some s => s | None => SecFromTime (LocalTime basis) end) in *.
  set (x' := match milliseconds next with
             | Some x => x | None => msFromTime (LocalTime basis) end) in *.
  destruct (fields_in_range (LocalTime basis)) as (_ & _ & R3 & R4).
  assert (Hs' : 0 <= s' < 60).
  { subst s'. destruct (seconds next) as [s |]; [now apply Rs | exact R3]. }
  assert (Hx' : 0 <= x' < 1000).
  { subst x'. destruct (milliseconds next) as [x |]; [now apply Rx | exact R4]. }
  destruct (@broken_down (Day (LocalTime basis)) _ _ _ _ Hh24 Hm60 Hs' Hx')
    as (Bd & Bh & Bm & Bs & Bx).
  rewrite <- Hlocal in Bd, Bh, Bm, Bs, Bx.
  subst back. unfold getValueParts. cbn [time].
  unfold getHours, getMinutes, getSeconds, getMilliseconds.
  rewrite Bh, Bm, Bs, Bx.
  assert (Hdisp : (if use12HourClock p
                   then (if (h24 <? 12)%Z then AM else PM,
                         if (Z.rem h24 12 =? 0)%Z then 12 else Z.rem h24 12)
                   else (AM, h24)) = (meridiem next, h)).
  { subst h24. unfold lowest, getMax in Vh.
    destruct (use12HourClock p) eqn:Hu.
    - destruct (Z.eqb_spec h 12) as [-> | Hne], (meridiem next); simpl.
      + reflexivity.
      + reflexivity.
      + rewrite Z.add_0_r. destruct (Z.ltb_spec h 12); [| lia].
        rewrite Z.rem_small by lia. destruct (Z.eqb_spec h 0); [lia | reflexivity].
      + destruct (Z.ltb_spec (h + 12) 12); [lia |].
        replace (Z.rem (h + 12) 12) with h
          by (Z.to_euclidean_division_equations; lia).
        destruct (Z.eqb_spec h 0); [lia | reflexivity].
    - now rewrite (Hmer eq_refl). }
  rewrite Hdisp. cbn [hours minutes seconds milliseconds meridiem].
  repeat split; try reflexivity. exact Bd.
Qed.

(** ** Editing a concrete value *)

Lemma getValueParts_all_present (v : Date) (use12 : bool) :
  exists h m s x mer,
    getValueParts (Some v) use12 = mkTimeParts (Some h) (Some m) (Some s) (Some x) mer
    /\ (use12 = false -> mer = AM).
Proof.
  unfold getValueParts. destruct use12; do 5 eexists; split; try reflexivity;
    intros H; try discriminate H; reflexivity.
Qed.

(** Replacing one segment of the record of a concrete value by a valid
    number, when the clocks skip no local time on the calendar day of the
    value, makes [notifyChange] report a Date that decomposes to the record
    with just that segment replaced, on the same calendar day as the value:
    no other field moves and nothing carries over. *)
Theorem edit_one_segment (p : Props) (v : Date) (part : NumPart) (n : Z) (id : nat) :
  value p = Some v ->
  isValid (String_of n) part (use12HourClock p) = true ->
  noSkippedTime (Day (LocalTime (time v))) ->
  let tp := getValueParts (Some v) (use12HourClock p) in
  let next := merge tp [SetNum part (Some n)] in
  exists t,
    notifyChange p tp [SetNum part (Some n)]
    = [OnChange (Some t) (Some (mkMeta (Some v) tp))]
    /\ getValueParts (Some (mkDate id t)) (use12HourClock p) = next
    /\ Day (LocalTime t) = Day (LocalTime (time v)).
Proof.
  intros Hv Hn Hday tp next. exists (composeDate p next).
  assert (Hday' : noSkippedTime
                    (Day (LocalTime (match value p with
                                     | Some d => time d
                                     | None => getDatePart p
                                     end)))) by now rewrite Hv.
  assert (Hvalid : validParts (use12HourClock p) next = true).
  { apply assign_valid; [apply getValueParts_valid | exact Hn]. }
  destruct (getValueParts_all_present v (use12HourClock p))
    as (h & m & s & x & mer & Htp & Hmer).
  assert (Hnext : exists h' m' s' x',
             next = mkTimeParts (Some h') (Some m') (Some s') (Some x') mer).
  { subst next tp. rewrite Htp. destruct part; cbn; do 4 eexists; reflexivity. }
  destruct Hnext as (h' & m' & s' & x' & Hnext).
  assert (Hcomplete : isPartialValue next (precision p) = false).
  { rewrite Hnext. destruct (precision p); reflexivity. }
  assert (Hmer' : use12HourClock p = false -> meridiem next = AM).
  { intros Hu. rewrite Hnext. cbn. now apply Hmer. }
  destruct (composeDate_decomposes p next id Hvalid Hcomplete Hmer' Hday')
    as (Bh & Bm & Bmer & Bs & Bx & Bd).
  rewrite Hv in Bd.
  split; [| split; [| exact Bd]].
  - rewrite notifyChange_cases. fold next. rewrite classify_code, Hcomplete.
    assert (He : isEmptyValue next (precision p) = false).
    { rewrite Hnext. destruct (precision p); reflexivity. }
    rewrite He, Hv. reflexivity.
  - remember (getValueParts (Some (mkDate id (composeDate p next))) (use12HourClock p))
      as back eqn:Hback. clear Hback.
    rewrite Hnext in Bh, Bm, Bmer, Bs, Bx |- *.
    destruct back as [bh bm bs bx bmer].
    cbn in Bh, Bm, Bmer, Bs, Bx. congruence.
Qed.





(** ** What an event can do *)

Lemma existsb_changes_app (a b : list Effect) :
  existsb changesOrNotifies (a ++ b)
  = existsb changesOrNotifies a || existsb changesOrNotifies b.
Proof. apply existsb_app. Qed.

Lemma filter_changes_app (a b : list Effect) :
  filter changesOrNotifies (a ++ b)
  = (filter changesOrNotifies a ++ filter changesOrNotifies b)%list.
Proof. apply filter_app. Qed.

Lemma notifyChange_one (p : Props) (tp : TimeParts) (updates : list Update) :
  exists e, notifyChange p tp updates = [e] /\ changesOrNotifies e = true.
Proof.
  rewrite notifyChange_cases.
  destruct (classify _ _); [destruct (value p) |..]; eexists; split; reflexivity.
Qed.

Lemma increment_changes (p : Props) (tp : TimeParts) (part : Part) (inc : Z) :
  (List.length (filter changesOrNotifies (increment p tp part inc)) <= 1)%nat.
Proof.
  unfold increment, useEditableCallback, createEditableCallback.
  destruct (disabled p || readOnly p); [simpl; lia |].
  destruct part as [part |]; cbv zeta.
  - destruct (negb _); [simpl; lia |].
    destruct (notifyChange_one p tp [SetNum part (Some (orZero (getPart tp part) + inc))])
      as (e & -> & He). simpl. rewrite He. simpl. lia.
  - destruct (notifyChange_one p tp
                [SetMeridiem (match meridiem tp with AM => PM | PM => AM end)])
      as (e & -> & He). simpl. rewrite He. simpl. lia.
Qed.

Lemma focus_branch_quiet (c : bool) (delta : Z) :
  filter changesOrNotifies (if c then PreventDefault :: focusNext delta else []) = [].
Proof. destruct c; reflexivity. Qed.

Lemma readOnly_branch_quiet (c : bool) :
  filter changesOrNotifies (if c then [PreventDefault] else []) = [].
Proof. destruct c; reflexivity. Qed.

(** Keys that change nothing. On an input, every key but ArrowUp and
    ArrowDown, and on the meridiem every key but those two and a, A, p, P,
    leaves the segments as they are and calls no [onChange]: all it can do
    is move the focus. *)
Theorem other_keys_change_nothing (p : Props) (tp : TimeParts) (part : Part)
    (event : KeyEvent) :
  key event <> "ArrowUp" -> key event <> "ArrowDown" ->
  (part = MeridiemPart ->
   key event <> "a" /\ key event <> "A" /\ key event <> "p" /\ key event <> "P") ->
  filter changesOrNotifies (handleKeyDown p tp part event) = [].
Proof.
  intros Hup Hdown Hmer. unfold handleKeyDown, useEditableCallback, createEditableCallback.
  destruct (disabled p || readOnly p); [reflexivity |]. cbv zeta.
  apply String.eqb_neq in Hup, Hdown. rewrite Hup, Hdown.
  rewrite !filter_changes_app, !focus_branch_quiet, readOnly_branch_quiet.
  destruct part as [part |]; [reflexivity |].
  destruct (Hmer eq_refl) as (Ha & HA & Hp & HP).
  apply String.eqb_neq in Ha, HA, Hp, HP. rewrite Ha, HA, Hp, HP. reflexivity.
Qed.

(** One event, one outcome. Whatever the user does, the handler either
    buffers one record, or calls [onChange] once, or does neither: it never
    does both and never does either twice. *)
Theorem one_outcome_per_event (p : Props) (tp : TimeParts) (e : UserEvent) :
  (List.length (filter changesOrNotifies (dispatch p tp e)) <= 1)%nat.
Proof.
  destruct e as [part raw | part event |]; cbn [dispatch].
  - rewrite handleChange_cases. cbn [filter changesOrNotifies].
    repeat match goal with
           | |- context [if ?c then _ else _] => destruct c
           end;
      try (simpl; lia);
      match goal with
      | |- context [notifyChange p tp ?u] =>
          destruct (notifyChange_one p tp u) as (e & -> & He); simpl; rewrite He; simpl; lia
      end.
  - destruct (String.eqb_spec (key event) "ArrowUp") as [Hup | Hup];
      [| destruct (String.eqb_spec (key event) "ArrowDown") as [Hdown | Hdown]].
    + unfold handleKeyDown, useEditableCallback, createEditableCallback.
      destruct (disabled p || readOnly p); [simpl; lia |]. cbv zeta. rewrite Hup.
      cbn [String.eqb Ascii.eqb Bool.eqb andb orb].
      rewrite !filter_changes_app, readOnly_branch_quiet.
      cbn [filter changesOrNotifies app].
      replace (filter changesOrNotifies (if match part with
                                            | Num _ => false
                                            | MeridiemPart => true
                                            end then [] else []))
        with (@nil Effect) by (destruct part; reflexivity).
      rewrite !app_nil_r. apply increment_changes.
    + unfold handleKeyDown, useEditableCallback, createEditableCallback.
      destruct (disabled p || readOnly p); [simpl; lia |]. cbv zeta. rewrite Hdown.
      cbn [String.eqb Ascii.eqb Bool.eqb andb orb].
      rewrite !filter_changes_app, readOnly_branch_quiet.
      cbn [filter changesOrNotifies app].
      replace (filter changesOrNotifies (if match part with
                                            | Num _ => false
                                            | MeridiemPart => true
                                            end then [] else []))
        with (@nil Effect) by (destruct part; reflexivity).
      rewrite !app_nil_r. apply increment_changes.
    + unfold handleKeyDown, useEditableCallback, createEditableCallback.
      destruct (disabled p || readOnly p); [simpl; lia |]. cbv zeta.
      apply String.eqb_neq in Hup, Hdown. rewrite Hup, Hdown.
      rewrite !filter_changes_app, !focus_branch_quiet, readOnly_branch_quiet.
      destruct part as [part |]; [simpl; lia |]. cbn [app].
      destruct (String.eqb_spec (key event) "a") as [Ha | Ha];
        [| destruct (String.eqb_spec (key event) "A") as [HA | HA]].
      * rewrite Ha. cbn [String.eqb Ascii.eqb Bool.eqb andb orb app].
        rewrite app_nil_r.
        destruct (notifyChange_one p tp [SetMeridiem AM]) as (e & -> & He).
        simpl. rewrite He. simpl. lia.
      * rewrite HA. cbn [String.eqb Ascii.eqb Bool.eqb andb orb app].
        rewrite app_nil_r.
        destruct (notifyChange_one p tp [SetMeridiem AM]) as (e & -> & He).
        simpl. rewrite He. simpl. lia.
      * cbn [orb app].
        destruct (String.eqb (key event) "p" || String.eqb (key event) "P");
          [| simpl; lia].
        destruct (notifyChange_one p tp [SetMeridiem PM]) as (e & -> & He).
        simpl. rewrite He. simpl. lia.
  - unfold handleClear, useEditableCallback, createEditableCallback.
    destruct (disabled p || readOnly p); [simpl; lia |].
    destruct (value p); simpl; lia.
Qed.

(** ** Evaluations of the hook *)

Lemma render_resync (fuel : nat) (state : HookState) (count : Z)
    (value : ValueProp) (use12 : ModeProp) :
  differs state value use12 = true -> count + 1 < 100 ->
  render (S (S fuel)) state count value use12
  = Some (getValueParts (dateOf value) (truthy use12),
          mkHookState value use12 (getValueParts (dateOf value) (truthy use12)), count + 1).
Proof.
  intros Hd Hc.
  change (render (S (S fuel)) state count value use12)
    with (match useTimePartState state count value use12 with
          | (_, Some state', count') => render (S fuel) state' count' value use12
          | (parts, None, count') => Some (parts, state, count')
          end).
  unfold useTimePartState. fold (differs state value use12). rewrite Hd. cbv zeta.
  destruct (Z.ltb_spec (count + 1) 100) as [_ | Hge]; [| lia].
  now rewrite render_in_sync by apply differs_after_reset.
Qed.

(** An evaluation always settles, within two passes of the hook and
    whatever fuel is left over: in sync it keeps session and counter; out of
    sync it adds one to the counter and resets the session if the counter
    is then below 100, and otherwise keeps the stale session. *)
Lemma render_cases (fuel : nat) (state : HookState) (count : Z)
    (value : ValueProp) (use12 : ModeProp) :
  render (S (S fuel)) state count value use12
  = Some (if differs state value use12
          then (if (count + 1 <? 100)%Z
                then (getValueParts (dateOf value) (truthy use12),
                      mkHookState value use12 (getValueParts (dateOf value) (truthy use12)),
                      count + 1)
                else (st_timeParts state, state, count + 1))
          else (st_timeParts state, state, count)).
Proof.
  destruct (differs state value use12) eqn:Hd.
  - destruct (Z.ltb_spec (count + 1) 100) as [Hlt | Hge].
    + now apply render_resync.
    + apply render_stale; [exact Hd | lia].
  - now apply render_in_sync.
Qed.

(** Once the counter has reached 99, no change of value or mode, however
    many, reaches the session again: after any run of evaluations the
    session is the one it was, and the counter has only grown. *)
Theorem renders_frozen (fuel : nat) (supplied : list (ValueProp * ModeProp)) :
  forall (state : HookState) (count : Z),
    99 <= count ->
    exists count',
      renders (S (S fuel)) state count supplied = Some (state, count')
      /\ count <= count'.
Proof.
  induction supplied as [| [value use12] rest IH]; intros state count Hc.
  - exists count. split; [reflexivity | lia].
  - cbn [renders]. rewrite render_cases.
    destruct (differs state value use12).
    + destruct (Z.ltb_spec (count + 1) 100) as [Hlt | Hge]; [lia |].
      destruct (IH state (count + 1)) as (count' & Hr & Hle); [lia |].
      exists count'. split; [exact Hr | lia].
    + destruct (IH state count Hc) as (count' & Hr & Hle).
      exists count'. split; [exact Hr | lia].
Qed.

(** ** The second keystroke *)

Lemma handleChange_outcome (p : Props) (tp : TimeParts) (part : NumPart) (raw : string) :
  raw <> "" ->
  let use12 := use12HourClock p in
  let buffer := orEmptyString (getPart tp part) in
  handleChange p tp part raw =
  Select ::
  match (if numericAndValid (buffer ++ raw) part use12
         then Some (digitsValue (buffer ++ raw))
         else if numericAndValid raw part use12 then Some (digitsValue raw)
         else None) with
  | Some n => notifyChange p tp [SetNum part (Some n)]
  | None => [PreventDefault]
  end.
Proof.
  intros Hraw use12 buffer. rewrite handleChange_cases. fold use12. fold buffer.
  apply String.eqb_neq in Hraw. rewrite Hraw.
  destruct (numericAndValid (buffer ++ raw) part use12); [reflexivity |].
  destruct (numericAndValid raw part use12); reflexivity.
Qed.

Lemma option_Z_eqb_eq (a b : option Z) : option_Z_eqb a b = true -> a = b.
Proof.
  destruct a, b; simpl; intros H; try discriminate H; [| reflexivity].
  apply Z.eqb_eq in H. now subst.
Qed.

(** What one more digit does to a segment that holds a valid value [b].
    Minutes and seconds: the digit is appended when [b] is 1 to 5, otherwise
    the segment restarts from the digit. Milliseconds: appended when [b] is
    1 to 99. Hours on the 24-hour clock: appended after 1, and after 2 when
    the digit is at most 3. Hours on the 12-hour clock: appended after 1
    when the digit is at most 2; otherwise the segment restarts from the
    digit, except that 0 is rejected. A buffered 0 never takes part: the
    segment restarts. *)
Theorem second_digit (p : Props) (tp : TimeParts) (part : NumPart) (b : Z) (d : ascii) :
  getPart tp part = Some b ->
  isValid (String_of b) part (use12HourClock p) = true ->
  isDigit d = true ->
  let v := digitVal d in
  let appended := Some (10 * b + v) in
  let expected :=
    match part with
    | Hours =>
        if use12HourClock p
        then (if (b =? 1)%Z && (v <=? 2)%Z then appended
              else if (v =? 0)%Z then None else Some v)
        else (if (b =? 1)%Z || ((b =? 2)%Z && (v <=? 3)%Z) then appended else Some v)
    | Minutes | Seconds => if (1 <=? b)%Z && (b <=? 5)%Z then appended else Some v
    | Milliseconds => if (1 <=? b)%Z && (b <=? 99)%Z then appended else Some v
    end in
  handleChange p tp part (String d "") =
  Select ::
  match expected with
  | Some n => notifyChange p tp [SetNum part (Some n)]
  | None => [PreventDefault]
  end.
Proof.
  intros Hget Hb Hd v appended expected.
  rewrite handleChange_outcome by discriminate. rewrite Hget.
  apply isValid_range in Hb.
  pose proof (getMax_below_1000 p part) as Hmax.
  pose proof (lowest_nonneg (use12HourClock p) part) as Hlo.
  set (use12 := use12HourClock p) in *.
  pose (spec := fun (k : Z) (c : ascii) =>
          let v := digitVal c in
          let appended := Some (10 * k + v) in
          match part with
          | Hours =>
              if use12
              then (if (k =? 1)%Z && (v <=? 2)%Z then appended
                    else if (v =? 0)%Z then None else Some v)
              else (if (k =? 1)%Z || ((k =? 2)%Z && (v <=? 3)%Z) then appended else Some v)
          | Minutes | Seconds => if (1 <=? k)%Z && (k <=? 5)%Z then appended else Some v
          | Milliseconds => if (1 <=? k)%Z && (k <=? 99)%Z then appended else Some v
          end).
  pose (code := fun (k : Z) (c : ascii) =>
          let buffer := orEmptyString (Some k) in
          let raw := String c "" in
          if numericAndValid (buffer ++ raw) part use12
          then Some (digitsValue (buffer ++ raw))
          else if numericAndValid raw part use12 then Some (digitsValue raw)
          else None).
  pose (f := fun k =>
          negb ((lowest use12 part <=? k)%Z && (k <=? getMax p (Num part))%Z)
          || forallb (fun c => option_Z_eqb (code k c) (spec k c)) (chars "0" "9")).
  assert (Hf : f b = true).
  { apply (forall_below f (match part with Milliseconds => 1000 | _ => 24 * 3 end)).
    - subst f code spec use12. unfold getMax.
      destruct part, (use12HourClock p); vm_compute; reflexivity.
    - subst use12. unfold getMax in Hb.
      destruct part, (use12HourClock p); simpl in Hb |- *; lia. }
  unfold f in Hf. apply orb_true_iff in Hf. destruct Hf as [Hf | Hf].
  { apply negb_true_iff, andb_false_iff in Hf. lia. }
  rewrite forallb_forall in Hf. specialize (Hf d).
  assert (Hin : In d (chars "0" "9")) by now apply chars_spec.
  apply Hf, option_Z_eqb_eq in Hin. unfold code, spec in Hin. cbv zeta in Hin.
  fold v in Hin. fold appended in Hin. fold expected in Hin.
  now rewrite Hin.
Qed.

(** ** Holding an arrow key *)

Lemma notifyChange_buffers (p : Props) (tp : TimeParts) (part q : NumPart) (n : Z) :
  In part (requiredParts (precision p)) ->
  In q (requiredParts (precision p)) ->
  q <> part -> getPart tp q = None ->
  notifyChange p tp [SetNum part (Some n)]
  = [SetTimeParts (merge tp [SetNum part (Some n)])].
Proof.
  intros Hpart Hq Hne Habs. rewrite notifyChange_cases.
  assert (Hc : classify (merge tp [SetNum part (Some n)]) (precision p) = PartialRecord).
  { destruct tp as [[?|] [?|] [?|] [?|] ?]; destruct (precision p), part, q;
      simpl in *; try discriminate Habs; try reflexivity;
      try (now elim Hne); intuition discriminate. }
  now rewrite Hc.
Qed.

Lemma getPart_assign_other (tp : TimeParts) (part q : NumPart) (v : option Z) :
  q <> part -> getPart (merge tp [SetNum part v]) q = getPart tp q.
Proof. intros Hne. destruct part, q; try reflexivity; now elim Hne. Qed.

(** One press of ArrowUp on a segment that is shown, while another shown
    segment is still absent. *)
Lemma arrow_up_step (p : Props) (tp : TimeParts) (part q : NumPart) (event : KeyEvent) :
  disabled p || readOnly p = false ->
  key event = "ArrowUp" ->
  In part (requiredParts (precision p)) ->
  In q (requiredParts (precision p)) ->
  q <> part -> getPart tp q = None ->
  segmentOK (use12HourClock p) part (getPart tp part) = true ->
  let v := orZero (getPart tp part) in
  dispatch p tp (KeyDownEvent (Num part) event)
  = PreventDefault ::
    (if (v + 1 <=? getMax p (Num part))%Z
     then [SetTimeParts (merge tp [SetNum part (Some (v + 1))]); Select]
     else [])
  /\ 0 <= v <= getMax p (Num part).
Proof.
  intros He Hk Hpart Hq Hne Habs Hok v. cbn [dispatch].
  rewrite (handleKeyDown_ArrowUp _ _ _ _ He Hk), (increment_numeric _ _ _ _ He).
  fold v.
  assert (Hv : 0 <= v <= getMax p (Num part)).
  { subst v. destruct (getPart tp part) as [z |]; cbn [segmentOK orZero] in *.
    - apply isValid_range in Hok.
      pose proof (lowest_nonneg (use12HourClock p) part). lia.
    - destruct part; simpl; try lia. destruct (use12HourClock p); lia. }
  split; [| exact Hv].
  destruct (Z.leb_spec (v + 1) (getMax p (Num part))) as [Hle | Hgt].
  - assert (Hvalid : isValid (String_of (v + 1)) part (use12HourClock p) = true).
    { apply isValid_range. split; [| exact Hle].
      destruct part, (use12HourClock p); simpl; lia. }
    rewrite Hvalid, (@notifyChange_buffers p tp part q (v + 1) Hpart Hq Hne Habs).
    reflexivity.
  - assert (Hinvalid : isValid (String_of (v + 1)) part (use12HourClock p) = false).
    { apply not_true_is_false. intros H. apply isValid_range in H. lia. }
    now rewrite Hinvalid.
Qed.

(** Holding ArrowUp on a segment while another shown segment is still
    absent: after [k] presses the segment holds its old value (0 when it was
    absent) plus [k], capped at [getMax]; it never wraps, no [onChange] is
    called, and the absent segment stays absent. *)
Theorem arrow_up_saturates (p : Props) (part q : NumPart) (event : KeyEvent) (k : nat) :
  disabled p || readOnly p = false ->
  key event = "ArrowUp" ->
  In part (requiredParts (precision p)) ->
  In q (requiredParts (precision p)) ->
  q <> part ->
  forall state,
    getPart (st_timeParts state) q = None ->
    segmentOK (use12HourClock p) part (getPart (st_timeParts state) part) = true ->
    let run := session p state (repeat (KeyDownEvent (Num part) event) k) in
    getPart (st_timeParts (fst run)) part
    = match k with
      | O => getPart (st_timeParts state) part
      | S _ => Some (Z.min (orZero (getPart (st_timeParts state) part) + Z.of_nat k)
                           (getMax p (Num part)))
      end
    /\ getPart (st_timeParts (fst run)) q = None
    /\ onChangeCalls (snd run) = [].
Proof.
  intros He Hk Hpart Hq Hne. induction k as [| k IH]; intros state Habs Hok.
  - cbn. repeat split; assumption.
  - cbn [repeat session]. cbv zeta.
    destruct (@arrow_up_step p (st_timeParts state) part q event He Hk Hpart Hq Hne Habs Hok)
      as [Hstep Hv].
    cbv zeta in Hstep. rewrite Hstep.
    set (v := orZero (getPart (st_timeParts state) part)) in *.
    destruct (Z.leb_spec (v + 1) (getMax p (Num part))) as [Hle | Hgt].
    + set (state1 := applyEffects state _).
      assert (H1 : st_timeParts state1
                   = merge (st_timeParts state) [SetNum part (Some (v + 1))])
        by reflexivity.
      assert (Habs1 : getPart (st_timeParts state1) q = None).
      { rewrite H1, getPart_assign_other by exact Hne. exact Habs. }
      assert (Hpart1 : getPart (st_timeParts state1) part = Some (v + 1)).
      { rewrite H1. apply getPart_assign. }
      assert (Hok1 : segmentOK (use12HourClock p) part (getPart (st_timeParts state1) part)
                     = true).
      { rewrite Hpart1. cbn [segmentOK]. apply isValid_range. split; [| exact Hle].
        destruct part, (use12HourClock p); simpl; lia. }
      specialize (IH state1 Habs1 Hok1). cbv zeta in IH.
      destruct (session p state1 (repeat (KeyDownEvent (Num part) event) k))
        as [state' trace].
      cbn [fst snd] in IH |- *. destruct IH as (IHv & IHq & IHc).
      split; [| split; [exact IHq | exact IHc]].
      rewrite IHv, Hpart1. destruct k as [| k']; cbn [orZero]; f_equal; lia.
    + set (state1 := applyEffects state _).
      assert (H1 : state1 = state) by reflexivity.
      rewrite H1. specialize (IH state Habs Hok). cbv zeta in IH. fold v in IH.
      destruct (session p state (repeat (KeyDownEvent (Num part) event) k))
        as [state' trace].
      cbn [fst snd] in IH |- *. destruct IH as (IHv & IHq & IHc).
      split; [| split; [exact IHq | exact IHc]].
      rewrite IHv. destruct k as [| k'].
      * destruct (getPart (st_timeParts state) part) as [z |] eqn:Hz.
        -- cbn [orZero] in v. f_equal. subst v. lia.
        -- subst v. cbn [orZero] in Hgt.
           destruct part; simpl in Hgt; try lia. destruct (use12HourClock p); lia.
      * f_equal. lia.
Qed.

(** One press of ArrowDown, under the same conditions. *)
Lemma arrow_down_step (p : Props) (tp : TimeParts) (part q : NumPart) (event : KeyEvent) :
  disabled p || readOnly p = false ->
  key event = "ArrowDown" ->
  In part (requiredParts (precision p)) ->
  In q (requiredParts (precision p)) ->
  q <> part -> getPart tp q = None ->
  segmentOK (use12HourClock p) part (getPart tp part) = true ->
  let v := orZero (getPart tp part) in
  dispatch p tp (KeyDownEvent (Num part) event)
  = PreventDefault ::
    (if (lowest (use12HourClock p) part <=? v - 1)%Z
     then [SetTimeParts (merge tp [SetNum part (Some (v - 1))]); Select]
     else [])
  /\ (forall z, getPart tp part = Some z ->
                lowest (use12HourClock p) part <= z <= getMax p (Num part)).
Proof.
  intros He Hk Hpart Hq Hne Habs Hok v. cbn [dispatch].
  rewrite (handleKeyDown_ArrowDown _ _ _ _ He Hk), (increment_numeric _ _ _ _ He).
  fold v. change (v + -1) with (v - 1).
  assert (Hz : forall z, getPart tp part = Some z ->
                         lowest (use12HourClock p) part <= z <= getMax p (Num part)).
  { intros z Hz. rewrite Hz in Hok. cbn [segmentOK] in Hok. now apply isValid_range in Hok. }
  assert (Hv : v - 1 <= getMax p (Num part)).
  { subst v. destruct (getPart tp part) as [z |]; cbn [orZero].
    - specialize (Hz z eq_refl). lia.
    - destruct part; simpl; try lia. destruct (use12HourClock p); lia. }
  split; [| exact Hz].
  destruct (Z.leb_spec (lowest (use12HourClock p) part) (v - 1)) as [Hle | Hgt].
  - assert (Hvalid : isValid (String_of (v - 1)) part (use12HourClock p) = true).
    { apply isValid_range. lia. }
    rewrite Hvalid, (@notifyChange_buffers p tp part q (v - 1) Hpart Hq Hne Habs).
    reflexivity.
  - assert (Hinvalid : isValid (String_of (v - 1)) part (use12HourClock p) = false).
    { apply not_true_is_false. intros H. apply isValid_range in H. lia. }
    now rewrite Hinvalid.
Qed.

(** Holding ArrowDown on a segment while another shown segment is still
    absent: an absent segment stays absent, and a segment that holds a
    value goes down by one per press until it reaches the least value its
    validator accepts (0, or 1 for the hours of the 12-hour clock) and stays
    there; no [onChange] is called. *)
Theorem arrow_down_saturates (p : Props) (part q : NumPart) (event : KeyEvent) (k : nat) :
  disabled p || readOnly p = false ->
  key event = "ArrowDown" ->
  In part (requiredParts (precision p)) ->
  In q (requiredParts (precision p)) ->
  q <> part ->
  forall state,
    getPart (st_timeParts state) q = None ->
    segmentOK (use12HourClock p) part (getPart (st_timeParts state) part) = true ->
    let run := session p state (repeat (KeyDownEvent (Num part) event) k) in
    getPart (st_timeParts (fst run)) part
    = option_map (fun z => Z.max (z - Z.of_nat k) (lowest (use12HourClock p) part))
                 (getPart (st_timeParts state) part)
    /\ getPart (st_timeParts (fst run)) q = None
    /\ onChangeCalls (snd run) = [].
Proof.
  intros He Hk Hpart Hq Hne. induction k as [| k IH]; intros state Habs Hok.
  - cbn [repeat session fst snd]. split; [| split; [exact Habs | reflexivity]].
    destruct (getPart (st_timeParts state) part) as [z |] eqn:Hz; [| reflexivity].
    cbn [option_map segmentOK] in *. apply isValid_range in Hok. f_equal. lia.
  - cbn [repeat session]. cbv zeta.
    destruct (@arrow_down_step p (st_timeParts state) part q event
                He Hk Hpart Hq Hne Habs Hok) as [Hstep Hrange].
    cbv zeta in Hstep. rewrite Hstep.
    set (v := orZero (getPart (st_timeParts state) part)) in *.
    destruct (Z.leb_spec (lowest (use12HourClock p) part) (v - 1)) as [Hle | Hgt].
    + set (state1 := applyEffects state _).
      assert (H1 : st_timeParts state1
                   = merge (st_timeParts state) [SetNum part (Some (v - 1))])
        by reflexivity.
      assert (Habs1 : getPart (st_timeParts state1) q = None).
      { rewrite H1, getPart_assign_other by exact Hne. exact Habs. }
      assert (Hpart1 : getPart (st_timeParts state1) part = Some (v - 1)).
      { rewrite H1. apply getPart_assign. }
      assert (Hsome : getPart (st_timeParts state) part = Some v).
      { subst v. destruct (getPart (st_timeParts state) part) as [z |]; [reflexivity |].
        cbn [orZero] in Hle. pose proof (lowest_nonneg (use12HourClock p) part). lia. }
      specialize (Hrange v Hsome).
      assert (Hok1 : segmentOK (use12HourClock p) part (getPart (st_timeParts state1) part)
                     = true).
      { rewrite Hpart1. cbn [segmentOK]. apply isValid_range. lia. }
      specialize (IH state1 Habs1 Hok1). cbv zeta in IH.
      destruct (session p state1 (repeat (KeyDownEvent (Num part) event) k))
        as [state' trace].
      cbn [fst snd] in IH |- *. destruct IH as (IHv & IHq & IHc).
      split; [| split; [exact IHq | exact IHc]].
      rewrite IHv, Hpart1, Hsome. cbn [option_map]. f_equal. lia.
    + set (state1 := applyEffects state _).
      assert (H1 : state1 = state) by reflexivity.
      rewrite H1. specialize (IH state Habs Hok). cbv zeta in IH.
      destruct (session p state (repeat (KeyDownEvent (Num part) event) k))
        as [state' trace].
      cbn [fst snd] in IH |- *. destruct IH as (IHv & IHq & IHc).
      split; [| split; [exact IHq | exact IHc]].
      rewrite IHv. destruct (getPart (st_timeParts state) part) as [z |] eqn:Hz;
        [| reflexivity].
      cbn [option_map]. specialize (Hrange z eq_refl). subst v. cbn [orZero] in Hgt.
      f_equal. lia.
Qed.

(** ** Moving focus *)

(** [focusNext] among the nodes the editor renders: ArrowRight goes to the
    node that follows and ArrowLeft back from there; from the hours nothing
    precedes and from the last node nothing follows, so focus stays; and for
    a node that is not rendered [indexOf] is -1, so a step right lands on
    the hours and a step left nowhere. *)
Theorem focusNext_traversal (p : Props) (input : Part) :
  (forall next, In input (focusableNodes p) ->
                focusNextTarget p input 1 = Some next ->
                focusNextTarget p next (-1) = Some input)
  /\ focusNextTarget p (Num Hours) (-1) = None
  /\ focusNextTarget p (last (focusableNodes p) (Num Hours)) 1 = None
  /\ (~ In input (focusableNodes p) ->
      focusNextTarget p input 1 = Some (Num Hours)
      /\ focusNextTarget p input (-1) = None).
Proof.
  unfold focusNextTarget, focusableNodes.
  split; [| split; [| split]].
  - intros next Hin Hn. revert Hin Hn.
    destruct (precision p), (use12HourClock p), input as [[] |]; cbv;
      intros Hin Hn; try discriminate Hn;
      try (injection Hn as <-; reflexivity);
      exfalso; intuition discriminate.
  - destruct (precision p), (use12HourClock p); reflexivity.
  - destruct (precision p), (use12HourClock p); reflexivity.
  - intros Hnot.
    destruct (precision p), (use12HourClock p), input as [[] |];
      try (exfalso; apply Hnot; cbv; tauto); split; reflexivity.
Qed.

(** ** A segment set by a keystroke or an arrow key *)


(** The Date reported for a complete record reads back with the segment
    that was set. *)
Lemma reported_segment (p : Props) (tp : TimeParts) (part : NumPart) (n : Z) (id : nat) :
  let next := merge tp [SetNum part (Some n)] in
  let basis := match value p with Some d => time d | None => getDatePart p end in
  validParts (use12HourClock p) tp = true ->
  isValid (String_of n) part (use12HourClock p) = true ->
  (use12HourClock p = false -> meridiem tp = AM) ->
  isPartialValue next (precision p) = false ->
  noSkippedTime (Day (LocalTime basis)) ->
  getPart (getValueParts (Some (mkDate id (composeDate p next))) (use12HourClock p)) part
  = Some n.
Proof.
  intros next basis Htp Hn Hmer Hcomplete Hday.
  assert (Hvalid : validParts (use12HourClock p) next = true)
    by (apply assign_valid; assumption).
  assert (Hmer' : use12HourClock p = false -> meridiem next = AM).
  { intros H. subst next. destruct part; exact (Hmer H). }
  destruct (composeDate_decomposes p next id Hvalid Hcomplete Hmer' Hday)
    as (Bh & Bm & _ & Bs & Bx & _).
  assert (Hset : getPart next part = Some n) by apply getPart_assign.
  destruct part; cbn [getPart] in *;
    rewrite ?Bh, ?Bm, ?Bs, ?Bx, ?Hset; reflexivity.
Qed.

(** When the owner passes that Date back as the value, the next evaluation
    of the hook shows the segment that was set. *)
Lemma reported_segment_shown (p : Props) (state : HookState) (part : NumPart) (n : Z)
    (id : nat) (fuel : nat) (count : Z) :
  let tp := st_timeParts state in
  let next := merge tp [SetNum part (Some n)] in
  let basis := match value p with Some d => time d | None => getDatePart p end in
  let told := dateValue (mkDate id (composeDate p next)) in
  validParts (use12HourClock p) tp = true ->
  isValid (String_of n) part (use12HourClock p) = true ->
  (use12HourClock p = false -> meridiem tp = AM) ->
  isPartialValue next (precision p) = false ->
  noSkippedTime (Day (LocalTime basis)) ->
  differs state told (use12HourClockProp p) = true -> count + 1 < 100 ->
  exists parts state',
    render (S (S fuel)) state count told (use12HourClockProp p)
    = Some (parts, state', count + 1)
    /\ getPart parts part = Some n
    /\ getPart (st_timeParts state') part = Some n.
Proof.
  intros tp next basis told Htp Hn Hmer Hcomplete Hday Hd Hc.
  rewrite (@render_resync fuel state count told (use12HourClockProp p) Hd Hc).
  do 2 eexists. split; [reflexivity |].
  cbn [st_timeParts dateOf told].
  split; apply (@reported_segment p tp part n id); assumption.
Qed.

(** C4. Typing into a numeric segment, with [buffer] the decimal rendering
    of the buffered value (empty when the segment is absent or 0). If
    [buffer ++ raw] is numeric and valid its value is stored in the segment;
    otherwise if [raw] alone is numeric and valid the segment restarts from
    the value of [raw]; otherwise the keystroke is rejected: nothing but
    [select] and [preventDefault] happens and the state is unchanged. An
    empty raw value stores the absent value when the buffer is empty or
    valid, and is rejected when the buffer is a stale value that the
    validator refuses. Storing [v] hands the update to [notifyChange]: while
    the record is incomplete it becomes the buffered record, with the
    segment at [v] and no [onChange]; once the record is complete it is
    reported through [onChange] as a Date that reads back with the segment
    at [v], which is what the hook shows once the owner passes that Date
    back; an emptied record of a concrete value is reported as
    [onChange(null)]. *)
Theorem C4_keystroke_accumulation (p : Props) (state : HookState) (part : NumPart)
    (raw : string) :
  let tp := st_timeParts state in
  let use12 := use12HourClock p in
  let buffer := orEmptyString (getPart tp part) in
  let effects := handleChange p tp part raw in
  let after := applyEffects state effects in
  let basis := match value p with Some d => time d | None => getDatePart p end in
  let stored (v : option Z) : Prop :=
    let next := merge tp [SetNum part v] in
    effects = Select :: notifyChange p tp [SetNum part v]
    /\ getPart next part = v
    /\ (classify next (precision p) = PartialRecord
        \/ (classify next (precision p) = EmptyRecord /\ value p = None) ->
        st_timeParts after = next
        /\ getPart (st_timeParts after) part = v
        /\ onChangeCalls effects = [])
    /\ (classify next (precision p) = CompleteRecord ->
        onChangeCalls effects
        = [OnChange (Some (composeDate p next)) (Some (mkMeta (value p) tp))]
        /\ after = state
        /\ (forall n id, v = Some n ->
              validParts use12 tp = true ->
              (use12 = false -> meridiem tp = AM) ->
              noSkippedTime (Day (LocalTime basis)) ->
              getPart (getValueParts (Some (mkDate id (composeDate p next))) use12) part
              = Some n
              /\ (forall fuel count,
                    differs state (dateValue (mkDate id (composeDate p next)))
                            (use12HourClockProp p) = true ->
                    count + 1 < 100 ->
                    exists parts state',
                      render (S (S fuel)) state count
                             (dateValue (mkDate id (composeDate p next)))
                             (use12HourClockProp p)
                      = Some (parts, state', count + 1)
                      /\ getPart parts part = Some n
                      /\ getPart (st_timeParts state') part = Some n)))
    /\ (classify next (precision p) = EmptyRecord ->
        forall d, value p = Some d ->
        onChangeCalls effects = [OnChange None None] /\ after = state) in
  let rejected : Prop :=
    effects = [Select; PreventDefault]
    /\ after = state
    /\ onChangeCalls effects = [] in
  if String.eqb raw ""
  then (if String.eqb buffer "" || isValid buffer part use12
        then stored None else rejected)
  else if numericAndValid (buffer ++ raw) part use12
  then stored (Some (digitsValue (buffer ++ raw)))
  else if numericAndValid raw part use12
  then stored (Some (digitsValue raw))
  else rejected.
Proof.
  intros tp use12 buffer effects after basis stored rejected.
  assert (Hstored : forall v,
             (forall n, v = Some n -> isValid (String_of n) part use12 = true) ->
             effects = Select :: notifyChange p tp [SetNum part v] -> stored v).
  { intros v Hok Heff. unfold stored. cbv zeta.
    split; [exact Heff |]. split; [apply getPart_assign |].
    unfold after. rewrite Heff, notifyChange_cases.
    split; [| split].
    - intros [Hc | [Hc Hv]]; rewrite Hc; [| rewrite Hv];
        (split; [reflexivity |]); (split; [apply getPart_assign | reflexivity]).
    - intros Hc. rewrite Hc. split; [reflexivity |]. split; [reflexivity |].
      intros n id -> Htp Hmer Hday.
      assert (Hn : isValid (String_of n) part use12 = true) by now apply Hok.
      assert (Hcomplete : isPartialValue (merge tp [SetNum part (Some n)]) (precision p)
                          = false).
      { rewrite isPartialValue_not_allRequiredPresent.
        revert Hc. unfold classify.
        destruct (allRequiredAbsent _ _); [discriminate |].
        destruct (allRequiredPresent _ _); [reflexivity | discriminate]. }
      split; [now apply reported_segment |].
      intros fuel count Hd Hcount.
      now apply (@reported_segment_shown p state part n id fuel count).
    - intros Hc d Hd. rewrite Hc, Hd. now split. }
  assert (Hrejected : effects = [Select; PreventDefault] -> rejected).
  { intros Heff. unfold rejected, after. rewrite Heff. repeat split. }
  pose proof (handleChange_cases p tp part raw) as Hcases. cbv zeta in Hcases.
  fold use12 in Hcases. fold buffer in Hcases. fold effects in Hcases.
  rewrite !numericAndValid_isValid in *.
  destruct (String.eqb raw "").
  - destruct (String.eqb buffer "" || isValid buffer part use12).
    + apply Hstored; [discriminate | exact Hcases].
    + now apply Hrejected.
  - destruct (isValid (buffer ++ raw) part use12) eqn:Hc.
    + apply Hstored; [| exact Hcases].
      intros n [= <-]. now apply isValid_ToNumber in Hc.
    + destruct (isValid raw part use12) eqn:Hr.
      * apply Hstored; [| exact Hcases].
        intros n [= <-]. now apply isValid_ToNumber in Hr.
      * now apply Hrejected.
Qed.


(** ** The properties above, for the record *)

(** The rendering of an integer passes the validator of a part exactly when
    the integer lies between the least accepted value and [getMax]; the
    least accepted value is [getMin], except for hours on the 24-hour clock,
    where 0 is accepted although [getMin] says 1. *)
Theorem isValid_bounds (p : Props) (part : NumPart) (n : Z) :
  (isValid (String_of n) part (use12HourClock p) = true
   <-> lowest (use12HourClock p) part <= n <= getMax p (Num part))
  /\ lowest (use12HourClock p) part
     = (if negb (use12HourClock p) && Part_eqb (Num part) (Num Hours)
        then 0 else getMin (Num part)).
Proof. exact (@isValid_range p part n). Qed.

(** Decomposing what was composed, when the clocks skip no local time on
    the calendar day of the basis Date. For a complete record of valid
    segments (with meridiem AM when the 12-hour clock is off), the Date that
    [composeDate] builds decomposes to the same hours, minutes and meridiem;
    its seconds and milliseconds are those of the record where the record
    has them and those of the basis Date where it has not; and it lies on
    the same calendar day as the basis. *)
Theorem decompose_composeDate (p : Props) (next : TimeParts) (id : nat) :
  validParts (use12HourClock p) next = true ->
  isPartialValue next (precision p) = false ->
  (use12HourClock p = false -> meridiem next = AM) ->
  let basis := match value p with Some d => time d | None => getDatePart p end in
  noSkippedTime (Day (LocalTime basis)) ->
  let back := getValueParts (Some (mkDate id (composeDate p next))) (use12HourClock p) in
  hours back = hours next
  /\ minutes back = minutes next
  /\ meridiem back = meridiem next
  /\ seconds back
     = Some (match seconds next with Some s => s | None => getSeconds basis end)
  /\ milliseconds back
     = Some (match milliseconds next with Some x => x | None => getMilliseconds basis end)
  /\ Day (LocalTime (composeDate p next)) = Day (LocalTime basis).
Proof. exact (@composeDate_decomposes p next id). Qed.

(** An evaluation always settles, within two passes of the hook and
    whatever fuel is left over: in sync it keeps session and counter; out of
    sync it adds one to the counter and resets the session if the counter
    is then below 100, and otherwise keeps the stale session. *)
Theorem render_settles (fuel : nat) (state : HookState) (count : Z)
    (value : ValueProp) (use12 : ModeProp) :
  render (S (S fuel)) state count value use12
  = Some (if differs state value use12
          then (if (count + 1 <? 100)%Z
                then (getValueParts (dateOf value) (truthy use12),
                      mkHookState value use12 (getValueParts (dateOf value) (truthy use12)),
                      count + 1)
                else (st_timeParts state, state, count + 1))
          else (st_timeParts state, state, count)).
Proof. exact (@render_cases fuel state count value use12). Qed.

(** Every record read off a value is well formed: each segment passes the
    validator of its part for the mode it was read in. Read off a Date it is
    complete at every precision, read off no value it is the all-absent
    record; and on the 24-hour clock its meridiem is AM. *)
Theorem getValueParts_well_formed (value : option Date) (use12 : bool) :
  validParts use12 (getValueParts value use12) = true
  /\ (forall prec,
        isPartialValue (getValueParts value use12) prec
        = match value with Some _ => false | None => true end)
  /\ getValueParts None use12 = allAbsent
  /\ (use12 = false -> meridiem (getValueParts value use12) = AM).
Proof.
  split; [apply getValueParts_valid |]. split; [| split; [reflexivity |]].
  - intros prec. destruct value as [v |].
    + now destruct (getValueParts_complete v use12 prec).
    + destruct prec; reflexivity.
  - intros ->. destruct value; reflexivity.
Qed.

(** From mounting on, whatever the user types, presses or clears while the
    props stay as they are, every buffered segment is absent or passes the
    validator of its part; so the text it contributes to the next keystroke
    is empty or valid. *)
Theorem session_segments_valid (p : Props) (events : list UserEvent) :
  let state := fst (session p (initialState (valueProp p) (use12HourClockProp p)) events) in
  validParts (use12HourClock p) (st_timeParts state) = true
  /\ (forall part,
        orEmptyString (getPart (st_timeParts state) part) = ""
        \/ isValid (orEmptyString (getPart (st_timeParts state) part)) part
                   (use12HourClock p) = true).
Proof.
  intros state.
  assert (H : validParts (use12HourClock p) (st_timeParts state) = true).
  { subst state. apply session_valid. apply getValueParts_valid. }
  split; [exact H |]. intros part. now apply buffer_of_valid.
Qed.

End TimeInput.

(** ** The two zones of the concrete instances *)

Lemma utc_noSkippedTime (d : Z) : noSkippedTime utc d.
Proof. intros L _. unfold LocalTime, UTC, utc. lia. Qed.

(** In New York the local time of an instant is never a skipped one. *)
Lemma newYork2021_keepsLocalTime (t : Z) : keepsLocalTime newYork2021 t.
Proof.
  unfold keepsLocalTime, LocalTime, UTC, newYork2021.
  repeat match goal with
         | |- context [(?a <? ?b)%Z] => destruct (Z.ltb_spec a b)
         end; lia.
Qed.

(** The one day of 2021 on which New York skips local times is day 18700,
    the 14th of March. *)
Lemma newYork2021_noSkippedTime (d : Z) : d <> 18700 -> noSkippedTime newYork2021 d.
Proof.
  intros Hd L HL. unfold Day, msPerDay in HL. unfold LocalTime, UTC, newYork2021.
  repeat match goal with
         | |- context [(?a <? ?b)%Z] => destruct (Z.ltb_spec a b)
         end;
    try lia; Z.to_euclidean_division_equations; lia.
Qed.

(** The instants of 2021 that New York does not read back as themselves are
    those of the hour after the clocks went back, from 06:00 to 07:00 UTC
    on 7 November: the second showing of the local times 01:00 to 02:00. *)
Lemma newYork2021_resolvesToItself (t : Z) :
  resolvesToItself newYork2021 t <-> ~ (1636264800000 <= t < 1636268400000).
Proof.
  unfold resolvesToItself, LocalTime, UTC, newYork2021.
  repeat match goal with
         | |- context [(?a <? ?b)%Z] => destruct (Z.ltb_spec a b)
         end; lia.
Qed.

(** On 14 March the local times from 02:00 to 03:00 are skipped: hour 2 set
    on a Date of that day reads back as 3. *)
Example newYork2021_skipped_hour :
  let midnight := 1615698000000 in
  getHours newYork2021 midnight = 0
  /\ getHours newYork2021 (setHours newYork2021 midnight 2) = 3.
Proof. vm_compute. split; reflexivity. Qed.

(** Settles the conditions at the head of a statement by evaluation. *)
Ltac settle_conditions H :=
  cbv zeta in H; cbv beta in H;
  repeat match type of H with
         | (if ?c then _ else _) =>
             let b := eval vm_compute in c in
             change c with b in H; cbv beta iota in H
         end.

(** ** Concrete instances

    An editor on the 24-hour clock with precision minutes unless said
    otherwise, in the UTC zone or in New York. *)

(** New York, 7 November 2021, the first 01:30 of the night the clocks go
    back: the value comes back as it was. *)
Lemma C1_codec_roundtrip_witness :
  let v := mkDate 1 1636263000000 in
  let p := mkProps (Some v) true minutes_ false false None in
  let parts := getValueParts newYork2021 (Some v) true in
  parts = mkTimeParts (Some 1) (Some 30) (Some 0) (Some 0) AM
  /\ notifyChange newYork2021 0 p parts []
     = [OnChange (Some (time v)) (Some (mkMeta (Some v) parts))].
Proof.
  intros v p parts. split; [reflexivity |].
  destruct (@C1_codec_roundtrip newYork2021 0 p v eq_refl
              (newYork2021_keepsLocalTime (time v)))
    as (H1 & _ & H3 & _).
  rewrite <- (H3 eq_refl). exact H1.
Defined.

(** The second 01:30 of the same night, one hour later: what is composed
    from its segments is the first 01:30, a different instant. *)
Lemma C1_repeated_hour_not_recovered :
  let v := mkDate 1 1636266600000 in
  let p := mkProps (Some v) false milliseconds_ false false None in
  let parts := getValueParts newYork2021 (Some v) false in
  parts = mkTimeParts (Some 1) (Some 30) (Some 0) (Some 0) AM
  /\ notifyChange newYork2021 0 p parts []
     = [OnChange (Some 1636263000000) (Some (mkMeta (Some v) parts))]
  /\ composeDate newYork2021 0 p parts <> time v.
Proof.
  intros v p parts. split; [vm_compute; reflexivity |].
  split; [vm_compute; reflexivity |]. vm_compute. lia.
Defined.

Lemma C2_notifyChange_decision_witness :
  let d := mkDate 1 50700000 in
  let withValue := mkProps (Some d) false minutes_ false false None in
  let noValue := mkProps None false minutes_ false false None in
  let nine := mkTimeParts (Some 9) None None None AM in
  notifyChange utc 0 withValue (getValueParts utc (Some d) false)
               [SetNum Hours None; SetNum Minutes None]
  = [OnChange None None]
  /\ notifyChange utc 0 noValue allAbsent [SetNum Hours (Some 9)] = [SetTimeParts nine]
  /\ onChangeCalls (notifyChange utc 0 noValue allAbsent [SetNum Hours (Some 9)]) = []
  /\ notifyChange utc 0 noValue nine [SetNum Minutes (Some 30)]
     = [OnChange (Some 34200000) (Some (mkMeta None nine))].
Proof.
  intros d withValue noValue nine.
  pose proof (C2_notifyChange_decision utc 0 withValue (getValueParts utc (Some d) false)
                [SetNum Hours None; SetNum Minutes None]
                (initialState utc nullValue (boolMode false))) as A.
  pose proof (C2_notifyChange_decision utc 0 noValue allAbsent
                [SetNum Hours (Some 9)] (initialState utc nullValue (boolMode false))) as B.
  pose proof (C2_notifyChange_decision utc 0 noValue nine
                [SetNum Minutes (Some 30)] (initialState utc nullValue (boolMode false))) as C.
  cbv zeta in A, B, C.
  destruct A as (A1 & _). destruct B as (_ & B2 & _ & B4). destruct C as (_ & _ & C3 & _).
  split; [apply (A1 d); reflexivity |].
  split; [apply B2; reflexivity |].
  split; [apply B4; reflexivity |].
  apply C3; reflexivity.
Defined.

(** The two keystroke scenarios, a rejected keystroke and a cleared
    segment, each as the state after the handler; and a keystroke that
    completes the record, with the Date it reports. *)
Lemma C4_keystroke_accumulation_witness :
  let p := mkProps None false minutes_ false false None in
  let s0 := initialState utc nullValue (boolMode false) in
  let s1 := applyEffects s0 (handleChange utc 0 p (st_timeParts s0) Hours "1") in
  let s2 := applyEffects s1 (handleChange utc 0 p (st_timeParts s1) Hours "2") in
  let t0 := mkHookState nullValue (boolMode false)
                        (mkTimeParts None (Some 9) None None AM) in
  let t1 := applyEffects t0 (handleChange utc 0 p (st_timeParts t0) Minutes "5") in
  let t2 := applyEffects t0 (handleChange utc 0 p (st_timeParts t0) Minutes "x") in
  let t3 := applyEffects t0 (handleChange utc 0 p (st_timeParts t0) Minutes "") in
  let u0 := mkHookState nullValue (boolMode false)
                        (mkTimeParts (Some 9) None None None AM) in
  getPart (st_timeParts s1) Hours = Some 1
  /\ getPart (st_timeParts s2) Hours = Some 12
  /\ getPart (st_timeParts t1) Minutes = Some 5
  /\ t2 = t0
  /\ getPart (st_timeParts t3) Minutes = None
  /\ onChangeCalls (handleChange utc 0 p (st_timeParts u0) Minutes "3")
     = [OnChange (Some 32580000) (Some (mkMeta None (st_timeParts u0)))]
  /\ getPart (getValueParts utc (Some (mkDate 0 32580000)) false) Minutes = Some 3.
Proof.
  intros p s0 s1 s2 t0 t1 t2 t3 u0.
  pose proof (C4_keystroke_accumulation utc 0 p u0 Minutes "3") as F.
  settle_conditions F. destruct F as (_ & _ & _ & F & _).
  destruct (F eq_refl) as (F1 & _ & F3).
  destruct (F3 3 0%nat eq_refl eq_refl (fun _ => eq_refl) (@utc_noSkippedTime _))
    as (F4 & _).
  pose proof (C4_keystroke_accumulation utc 0 p s0 Hours "1") as A.
  pose proof (C4_keystroke_accumulation utc 0 p s1 Hours "2") as B.
  pose proof (C4_keystroke_accumulation utc 0 p t0 Minutes "5") as C.
  pose proof (C4_keystroke_accumulation utc 0 p t0 Minutes "x") as D.
  pose proof (C4_keystroke_accumulation utc 0 p t0 Minutes "") as E.
  settle_conditions A. settle_conditions B. settle_conditions C.
  settle_conditions D. settle_conditions E.
  destruct A as (_ & _ & A & _). destruct B as (_ & _ & B & _).
  destruct C as (_ & _ & C & _). destruct D as (_ & D & _).
  destruct E as (_ & _ & E & _).
  split; [apply A; left; reflexivity |].
  split; [apply B; left; reflexivity |].
  split; [apply C; left; reflexivity |].
  split; [exact D |].
  split; [apply E; right; split; reflexivity |].
  split; [exact F1 | exact F4].
Defined.

(** Hours 13 typed on the 24-hour clock, then a switch to the 12-hour clock
    that the exhausted counter keeps the session from following: the empty
    raw value is rejected and the segment keeps its 13. *)
Lemma C4_stale_segment_not_cleared :
  let p24 := mkProps None false minutes_ false false None in
  let p12 := mkProps None true minutes_ false false None in
  let s0 := initialState utc nullValue (boolMode false) in
  let s1 := applyEffects s0 (handleChange utc 0 p24 (st_timeParts s0) Hours "1") in
  let s2 := applyEffects s1 (handleChange utc 0 p24 (st_timeParts s1) Hours "3") in
  let cleared := handleChange utc 0 p12 (st_timeParts s2) Hours "" in
  getPart (st_timeParts s2) Hours = Some 13
  /\ render utc 2 s2 99 nullValue (boolMode true) = Some (st_timeParts s2, s2, 100)
  /\ cleared = [Select; PreventDefault]
  /\ getPart (st_timeParts (applyEffects s2 cleared)) Hours <> None.
Proof.
  intros p24 p12 s0 s1 s2 cleared.
  split; [vm_compute; reflexivity |]. split; [vm_compute; reflexivity |].
  split; [vm_compute; reflexivity |]. vm_compute. intros H. discriminate H.
Defined.

Lemma C5_increment_boundary_witness :
  let p := mkProps None false minutes_ false false None in
  let tp := mkTimeParts (Some 23) None None None AM in
  let state := mkHookState nullValue (boolMode false) tp in
  let up := mkKeyEvent "ArrowUp" 0 2 2 in
  increment utc 0 p tp (Num Hours) 1 = []
  /\ applyEffects state (handleKeyDown utc 0 p tp (Num Hours) up) = state
  /\ onChangeCalls (handleKeyDown utc 0 p tp (Num Hours) up) = [].
Proof.
  intros p tp state up.
  destruct (C5_increment_boundary utc 0 p tp state) as (H1 & H2 & _ & H4).
  split.
  - apply (H1 Hours 1). reflexivity.
  - apply (H4 eq_refl eq_refl up). reflexivity.
Defined.

Lemma C7_resynchronisation_witness :
  let d := mkDate 1 50700000 in
  render utc 2 (initialState utc nullValue (boolMode false)) 0 (dateValue d) (boolMode false)
  = Some (getValueParts utc (Some d) false,
          mkHookState (dateValue d) (boolMode false) (getValueParts utc (Some d) false),
          1).
Proof.
  intros d.
  apply (C7_resynchronisation utc 0 (initialState utc nullValue (boolMode false)) 0
           (dateValue d) (boolMode false));
    reflexivity.
Defined.

(** With the counter at 99 the difference is seen and counted, but the
    session keeps the segments of the old value. *)
Lemma C7_counter_exhausted :
  let d := mkDate 1 50700000 in
  let state := initialState utc nullValue (boolMode false) in
  differs state (dateValue d) (boolMode false) = true
  /\ render utc 2 state 99 (dateValue d) (boolMode false) = Some (allAbsent, state, 100)
  /\ st_timeParts state <> getValueParts utc (Some d) false.
Proof.
  intros d state. split; [reflexivity |]. split; [reflexivity |].
  intros H. discriminate H.
Defined.

Lemma C8_clear_witness :
  let d := mkDate 1 50700000 in
  let withValue := mkProps (Some d) false minutes_ false false None in
  let noValue := mkProps None false minutes_ false false None in
  handleClear utc withValue = [FocusHours; OnChange None None]
  /\ handleClear utc noValue = [FocusHours; SetTimeParts allAbsent].
Proof.
  intros d withValue noValue.
  destruct (C8_clear utc withValue (initialState utc nullValue (boolMode false)) eq_refl)
    as (A & _).
  destruct (C8_clear utc noValue (initialState utc nullValue (boolMode false)) eq_refl)
    as (_ & B & _).
  split; [apply (A d); reflexivity | apply B; reflexivity].
Defined.

(** A read-only editor: the arrows, the meridiem keys and the clear button
    do nothing, and the key a pressed in the hours segment is not
    default-prevented. *)
Lemma C9_suppressed_witness :
  let d := mkDate 1 50700000 in
  let p := mkProps (Some d) true minutes_ false true None in
  let state := initialState utc (dateValue d) (boolMode true) in
  let tp := st_timeParts state in
  let a := mkKeyEvent "a" 0 2 2 in
  increment utc 0 p tp (Num Hours) 1 = []
  /\ increment utc 0 p tp MeridiemPart 1 = []
  /\ handleKeyDown utc 0 p tp MeridiemPart (mkKeyEvent "p" 0 0 0) = []
  /\ handleClear utc p = []
  /\ handleKeyDown utc 0 p tp (Num Hours) a = []
  /\ ~ In PreventDefault (handleKeyDown utc 0 p tp (Num Hours) a).
Proof.
  intros d p state tp a.
  destruct (C9_suppressed utc 0 p state eq_refl) as (H1 & H2 & H3 & _ & H5).
  split; [apply H1 |]. split; [apply H1 |]. split; [apply H3 |]. split; [apply H2 |].
  split; [apply H3 |].
  apply (H5 eq_refl (Num Hours) a). intros H. discriminate H.
Defined.


(** ** Further concrete instances *)

Lemma padStart_returns_witness :
  exists k, padStart 3 (Some 7) 2 "0" = Some (repeatString "0" k ++ "7").
Proof.
  destruct (@padStart_returns 3 (Some 7) 2 "0") as (k & H & _);
    [discriminate | simpl; lia |].
  exists k. exact H.
Defined.

Lemma padStart_empty_pad_loops_witness :
  padStart 1000 None 2 "" = None
  /\ segmentText 1000 true "" allAbsent Hours = None.
Proof.
  destruct (@padStart_empty_pad_loops 1000 None 2) as [H1 H2]; [simpl; lia |].
  split; [exact H1 | apply H2; reflexivity].
Defined.

Lemma segmentText_roundtrip_witness :
  let p := mkProps None false minutes_ false false None in
  let tp := mkTimeParts None (Some 5) None None AM in
  exists text,
    segmentText 4 true "-" tp Minutes = Some text
    /\ ToNumber text = Int 5
    /\ (true = true -> Z.of_nat (String.length text) = 2).
Proof.
  intros p tp.
  apply (@segmentText_roundtrip p tp Minutes 5 0 true "-"); reflexivity.
Defined.

Lemma segmentText_revalidates_witness :
  let p := mkProps None false minutes_ false false None in
  let tp := mkTimeParts (Some 5) None None None AM in
  exists text,
    segmentText 4 true "-" tp Hours = Some text
    /\ isValid text Hours false = false.
Proof.
  intros p tp.
  apply (@segmentText_revalidates p tp Hours 5 0 true "-"); reflexivity.
Defined.

(** New York, on the day the clocks go back: 9:30 PM composed on that day
    reads back as 9:30 PM. *)
Lemma decompose_composeDate_witness :
  let basis := mkDate 2 1636263000000 in
  let p := mkProps None true minutes_ false false (Some basis) in
  let next := mkTimeParts (Some 9) (Some 30) None None PM in
  let back := getValueParts newYork2021
                (Some (mkDate 0 (composeDate newYork2021 0 p next))) true in
  hours back = Some 9 /\ minutes back = Some 30 /\ meridiem back = PM.
Proof.
  intros basis p next back.
  destruct (@decompose_composeDate newYork2021 0 p next 0) as (H1 & H2 & H3 & _);
    [reflexivity | reflexivity | intros H; discriminate H
     | apply newYork2021_noSkippedTime; discriminate |].
  split; [exact H1 | split; [exact H2 | exact H3]].
Defined.

Lemma edit_one_segment_witness :
  let d := mkDate 1 50707123 in
  let p := mkProps (Some d) false minutes_ false false None in
  let tp := getValueParts utc (Some d) false in
  exists t,
    notifyChange utc 0 p tp [SetNum Minutes (Some 30)]
    = [OnChange (Some t) (Some (mkMeta (Some d) tp))]
    /\ getValueParts utc (Some (mkDate 0 t)) false
       = mkTimeParts (Some 14) (Some 30) (Some 7) (Some 123) AM
    /\ Day (LocalTime utc t) = 0.
Proof.
  intros d p tp.
  apply (@edit_one_segment utc 0 p d Minutes 30 0);
    [reflexivity | reflexivity | apply utc_noSkippedTime].
Defined.


Lemma other_keys_change_nothing_witness :
  let p := mkProps None false minutes_ false false None in
  filter changesOrNotifies
         (handleKeyDown utc 0 p allAbsent (Num Hours) (mkKeyEvent "ArrowLeft" 0 0 2))
  = [].
Proof.
  intros p.
  apply (@other_keys_change_nothing utc 0 p allAbsent (Num Hours)
           (mkKeyEvent "ArrowLeft" 0 0 2));
    [discriminate | discriminate | intros H; discriminate H].
Defined.

Lemma renders_frozen_witness :
  let d := mkDate 1 50700000 in
  let state := initialState utc nullValue (boolMode false) in
  exists count',
    renders utc 2 state 99
            [(dateValue d, boolMode false); (nullValue, boolMode true);
             (dateValue d, boolMode true)]
    = Some (state, count')
    /\ 99 <= count'.
Proof.
  intros d state.
  apply (@renders_frozen utc 0
           [(dateValue d, boolMode false); (nullValue, boolMode true);
            (dateValue d, boolMode true)] state 99).
  lia.
Defined.

Lemma second_digit_witness :
  let p := mkProps None false minutes_ false false None in
  let tp := mkTimeParts None (Some 4) None None AM in
  handleChange utc 0 p tp Minutes "2"
  = [Select; SetTimeParts (mkTimeParts None (Some 42) None None AM)].
Proof.
  intros p tp.
  rewrite (@second_digit utc 0 p tp Minutes 4 "2"%char eq_refl eq_refl eq_refl).
  reflexivity.
Defined.

Lemma arrow_up_saturates_witness :
  let p := mkProps None false minutes_ false false None in
  let up := mkKeyEvent "ArrowUp" 0 2 2 in
  let run := session utc 0 p (initialState utc nullValue (boolMode false))
                     (repeat (KeyDownEvent (Num Hours) up) 30) in
  getPart (st_timeParts (fst run)) Hours = Some 23
  /\ getPart (st_timeParts (fst run)) Minutes = None
  /\ onChangeCalls (snd run) = [].
Proof.
  intros p up.
  apply (@arrow_up_saturates utc 0 p Hours Minutes up 30 eq_refl eq_refl);
    try reflexivity; try discriminate; simpl; tauto.
Defined.

Lemma arrow_down_saturates_witness :
  let p := mkProps None true minutes_ false false None in
  let down := mkKeyEvent "ArrowDown" 0 2 2 in
  let state := mkHookState nullValue (boolMode true)
                           (mkTimeParts (Some 3) None None None AM) in
  let run := session utc 0 p state (repeat (KeyDownEvent (Num Hours) down) 5) in
  getPart (st_timeParts (fst run)) Hours = Some 1
  /\ getPart (st_timeParts (fst run)) Minutes = None
  /\ onChangeCalls (snd run) = [].
Proof.
  intros p down state.
  apply (@arrow_down_saturates utc 0 p Hours Minutes down 5 eq_refl eq_refl);
    try reflexivity; try discriminate; simpl; tauto.
Defined.
